(** * Equipment reports API: a shallow embedding of [backend/server.js]
    and of the [Equipment] model, with the properties of its four
    operations (create, list, update status, delete).

    The request handlers are written in a small state-and-exception
    monad over the database, so that each one reads like its [async]
    function: [try]/[catch], early [return], and the calls to the model.
    The database is taken to be reachable: a command that is sent to it
    is carried out, and what a handler catches is a TypeError, a
    CastError or a ValidationError. *)

From Stdlib Require Import ZArith NArith Lia.
From stdpp Require Import base option list strings gmap sorting infinite pretty.

Local Open Scope Z_scope.

(** ** JavaScript values *)

Module JS.

(** A JavaScript string is a sequence of UTF-16 code units. *)
Abbreviation jsstring := (list N).

(** A literal of the source, all of whose characters are ASCII. *)
Definition lit (s : string) : jsstring :=
  (λ c, N.of_nat (Ascii.nat_of_ascii c)) <$> String.list_ascii_of_string s.

(** WhiteSpace and LineTerminator of ECMAScript: the code units that
    [String.prototype.trim] strips. *)
Definition isWhiteSpace (c : N) : bool :=
  bool_decide (c ∈ [9; 10; 11; 12; 13; 32; 160; 5760; 8232; 8233; 8239;
                    8287; 12288; 65279]%N)
  || ((8192 <=? c) && (c <=? 8202))%N.

Fixpoint trimStart (s : jsstring) : jsstring :=
  match s with
  | c :: r => if isWhiteSpace c then trimStart r else s
  | [] => []
  end.

Definition trimEnd (s : jsstring) : jsstring :=
  reverse (trimStart (reverse s)).

Definition trim (s : jsstring) : jsstring := trimEnd (trimStart s).

Fixpoint startsWith (s p : jsstring) : bool :=
  match p, s with
  | [], _ => true
  | a :: p', b :: s' => (a =? b)%N && startsWith s' p'
  | _ :: _, [] => false
  end.

(** The values a parsed request body can hold, and [Date] objects.
    Only the truthiness of a number is ever observed, so numbers are
    integers here; [JsObject] stands for arrays and nested objects. *)
Inductive JsValue :=
| JsUndefined
| JsNull
| JsBool (b : bool)
| JsNumber (n : Z)
| JsString (s : jsstring)
| JsDate (ms : Z)
| JsObject.

(** ToBoolean. *)
Definition truthy (v : JsValue) : bool :=
  match v with
  | JsUndefined | JsNull => false
  | JsBool b => b
  | JsNumber n => negb (n =? 0)
  | JsString s => negb (bool_decide (s = []))
  | JsDate _ | JsObject => true
  end.

(** The string that a value is, if it is one. *)
Definition text (v : JsValue) : option jsstring :=
  match v with
  | JsString s => Some s
  | _ => None
  end.

(** [a || b] *)
Definition js_or (a b : JsValue) : JsValue := if truthy a then a else b.

(** [array.includes(v)] for an array of strings (SameValueZero). *)
Definition includes (l : list jsstring) (v : JsValue) : bool :=
  match v with
  | JsString s => bool_decide (s ∈ l)
  | _ => false
  end.

(** A request body: an object read by property name; a property that
    is not there reads as [undefined]. *)
Definition get (o : gmap string JsValue) (k : string) : JsValue :=
  default JsUndefined (o !! k).

End JS.
Import JS.


(** ** The host: what the model takes from the JavaScript engine and
    from the BSON library *)

(** Mongoose casts a value to a [Date] by handing it to the engine's
    [Date] constructor, whose parsing of a string is left to the
    implementation outside the ISO format; and it casts the [:id] of a
    path to an [ObjectId] with the BSON library. Both are parameters of
    the model: [toDate v] is the time value of the [Date] that the cast
    builds from [v], [None] for an Invalid Date; [toObjectId s] is
    [None] when the cast of [s] throws. An [ObjectId] is a number of 12
    bytes. *)
Abbreviation ObjectId := N.

Class Host := {
  toDate : JsValue → option Z;
  toObjectId : jsstring → option ObjectId
}.

(** ** Mongoose: the [Equipment] model *)

(** The paths the schema declares. [photo] and [datetime] may hold
    [null]. *)
Record Paths := {
  title : jsstring;
  description : jsstring;
  location : jsstring;
  laboratory : jsstring;
  photo : option jsstring;
  datetime : option Z;
  status : jsstring
}.

(** A stored document: the declared paths and, by [timestamps: true],
    [createdAt] and [updatedAt]. Its [_id] is its key in the collection. *)
Record Equipment := {
  paths :> Paths;
  createdAt : Z;
  updatedAt : Z
}.

Inductive ValidatorError := Required | MaxLength | Enum | Cast.

(** What an [async] function can throw in this program. *)
Inductive Exn :=
| TypeError
| CastError (path : string)
| ValidationError (errors : list (string * ValidatorError))
| MulterError (code : string)
| Error (message : string).

(** The options of a [String] path of the schema. *)
Record StringOptions := {
  required : bool;
  trimOpt : bool;
  maxlength : option nat;
  enum : option (list jsstring)
}.

Definition titlePath : StringOptions :=
  {| required := true; trimOpt := true; maxlength := Some 100%nat; enum := None |}.
Definition descriptionPath : StringOptions :=
  {| required := true; trimOpt := true; maxlength := Some 500%nat; enum := None |}.
Definition locationPath : StringOptions :=
  {| required := true; trimOpt := true; maxlength := Some 100%nat; enum := None |}.
Definition laboratoryPath : StringOptions :=
  {| required := true; trimOpt := true; maxlength := Some 100%nat; enum := None |}.
Definition statusValues : list jsstring :=
  [lit "pendente"; lit "em_manutencao"; lit "concluido"].
Definition statusPath : StringOptions :=
  {| required := false; trimOpt := false; maxlength := None; enum := Some statusValues |}.

(** The setter of a [String] path: [trim: true] trims what is assigned. *)
Definition setString (o : StringOptions) (v : jsstring) : jsstring :=
  if trimOpt o then trim v else v.

(** The validators of a [String] path, [required] first; the first one
    that fails gives the error of the path. *)
Definition validateString (o : StringOptions) (v : jsstring) : option ValidatorError :=
  if required o && bool_decide (v = []) then Some Required
  else if match maxlength o with
          | Some n => negb (length v <=? n)%nat
          | None => false
          end then Some MaxLength
  else if match enum o with
          | Some l => negb (bool_decide (v ∈ l))
          | None => false
          end then Some Enum
  else None.

(** The cast of a [Date] path (mongoose's [castDate]): [Some None] is
    [null], [None] is a CastError. *)
Definition castDate `{Host} (v : JsValue) : option (option Z) :=
  match v with
  | JsUndefined | JsNull | JsString [] => Some None
  | JsDate ms => Some (Some ms)
  | JsBool _ => None
  | JsNumber _ | JsString _ | JsObject =>
      match toDate v with
      | Some ms => Some (Some ms)
      | None => None
      end
  end.

(** A document made by [new Equipment({...})] and not saved yet: the
    values of its paths after setters and casts, and the paths whose
    cast failed (they are reported when the document is validated).
    The create handler gives a value to every path, so that no default
    of the schema applies. *)
Record Document := {
  doc : Paths;
  castErrors : list string
}.

Definition new_Equipment `{Host} (title description location laboratory : jsstring)
    (datetime : JsValue) (photo : option jsstring) (status : jsstring) : Document :=
  {| doc := {| title := setString titlePath title;
               description := setString descriptionPath description;
               location := setString locationPath location;
               laboratory := setString laboratoryPath laboratory;
               photo := photo;
               datetime := default None (castDate datetime);
               status := setString statusPath status |};
     castErrors := match castDate datetime with
                   | Some _ => []
                   | None => ["datetime"]
                   end |}.

Definition pathError (name : string) (e : option ValidatorError)
  : list (string * ValidatorError) :=
  match e with
  | Some k => [(name, k)]
  | None => []
  end.

(** [doc.validate()]: the errors of the document, path by path. *)
Definition validate (d : Document) : list (string * ValidatorError) :=
  pathError "title" (validateString titlePath (title (doc d)))
  ++ pathError "description" (validateString descriptionPath (description (doc d)))
  ++ pathError "location" (validateString locationPath (location (doc d)))
  ++ pathError "laboratory" (validateString laboratoryPath (laboratory (doc d)))
  ++ ((λ p, (p, Cast)) <$> castErrors d)
  ++ pathError "status" (validateString statusPath (status (doc d))).

(** ** The database *)

(** The commands sent to the database, newest last: a record of what
    has reached the persistence layer. *)
Inductive Command :=
| CmdFind
| CmdInsert (id : ObjectId)
| CmdFindOneAndUpdate (id : ObjectId)
| CmdFindOneAndDelete (id : ObjectId).

(** The [equipments] collection, keyed by [_id], and the commands it has
    received. *)
Record Db := {
  equipments : gmap N Equipment;
  commands : list Command
}.

Definition emptyDb : Db := {| equipments := ∅; commands := [] |}.

Definition send (c : Command) (m : gmap N Equipment) (db : Db) : Db :=
  {| equipments := m; commands := commands db ++ [c] |}.

(** ** Async functions: state of the database and exceptions *)

Definition Async (A : Type) : Type := Db → (Exn + A) * Db.

Definition ret {A} (a : A) : Async A := λ db, (inr a, db).

Definition throw {A} (e : Exn) : Async A := λ db, (inl e, db).

Definition bind {A B} (m : Async A) (k : A → Async B) : Async B :=
  λ db, match m db with
        | (inr a, db') => k a db'
        | (inl e, db') => (inl e, db')
        end.

Definition try_catch {A} (m : Async A) (handler : Exn → Async A) : Async A :=
  λ db, match m db with
        | (inr a, db') => (inr a, db')
        | (inl e, db') => handler e db'
        end.

Notation "'await' x ← m ; k" := (bind m (λ x, k))
  (at level 10, x name, m at level 100, k at level 200,
   format "'[v' 'await'  x  ←  m ; '/' k ']'").

(** ** The queries of the model *)

(** [.sort({ createdAt: -1 })] *)
Definition newest_first (a b : ObjectId * Equipment) : Prop :=
  createdAt b.2 ≤ createdAt a.2.

Global Instance newest_first_dec : RelDecision newest_first :=
  λ a b, decide (createdAt b.2 ≤ createdAt a.2).

(** [Equipment.find().sort({ createdAt: -1 })] *)
Definition find_sort : Async (list (ObjectId * Equipment)) :=
  λ db, (inr (merge_sort newest_first (map_to_list (equipments db))),
         send CmdFind (equipments db) db).

(** [equipment.save()] of a new document: validation, then the
    timestamps and the insertion under an [_id] no stored document has. *)
Definition save (now : Z) (d : Document) : Async (ObjectId * Equipment) :=
  match validate d with
  | [] => λ db,
      let id := fresh (dom (equipments db)) in
      let e := {| paths := doc d; createdAt := now; updatedAt := now |} in
      (inr (id, e), send (CmdInsert id) (<[id := e]> (equipments db)) db)
  | errors => throw (ValidationError errors)
  end.

Definition setStatus (s : jsstring) (now : Z) (e : Equipment) : Equipment :=
  {| paths := {| title := title e; description := description e;
                 location := location e; laboratory := laboratory e;
                 photo := photo e; datetime := datetime e; status := s |};
     createdAt := createdAt e;
     updatedAt := now |}.

(** [Equipment.findByIdAndUpdate(id, { status }, { new: true,
    runValidators: true })]: the id and the update are cast, the update
    is validated, and the updated document is returned, [None] ([null])
    when no document has this id. Only strings reach the cast of
    [status] in this program; the cast of other values is not modelled
    and is given as a CastError. *)
Definition findByIdAndUpdate `{Host} (id : jsstring) (status : JsValue) (now : Z)
  : Async (option (ObjectId * Equipment)) :=
  match toObjectId id with
  | None => throw (CastError "_id")
  | Some oid =>
      match status with
      | JsString s =>
          match validateString statusPath s with
          | Some k => throw (ValidationError [("status", k)])
          | None => λ db,
              match equipments db !! oid with
              | Some e =>
                  let e' := setStatus s now e in
                  (inr (Some (oid, e')),
                   send (CmdFindOneAndUpdate oid) (<[oid := e']> (equipments db)) db)
              | None =>
                  (inr None, send (CmdFindOneAndUpdate oid) (equipments db) db)
              end
          end
      | _ => throw (CastError "status")
      end
  end.

(** [Equipment.findByIdAndDelete(id)] *)
Definition findByIdAndDelete `{Host} (id : jsstring)
  : Async (option (ObjectId * Equipment)) :=
  match toObjectId id with
  | None => throw (CastError "_id")
  | Some oid => λ db,
      match equipments db !! oid with
      | Some e =>
          (inr (Some (oid, e)),
           send (CmdFindOneAndDelete oid) (delete oid (equipments db)) db)
      | None =>
          (inr None, send (CmdFindOneAndDelete oid) (equipments db) db)
      end
  end.

(** ** Multer: the upload of the [photo] part *)

(** A file part of a multipart request. *)
Record File := {
  originalname : jsstring;
  mimetype : jsstring;
  size : N
}.

(** [fileFilter]: [inr true] accepts the file, [inl err] is [cb(err, false)]. *)
Definition fileFilter (file : File) : Exn + bool :=
  if startsWith (mimetype file) (lit "image/") then inr true
  else inl (Error "Apenas imagens são permitidas!").

(** [limits.fileSize] *)
Definition fileSize : N := 5 * 1024 * 1024.

(** [filename] of the disk storage: [Date.now() + '-' + file.originalname]. *)
Definition filename (now : Z) (file : File) : jsstring :=
  lit (pretty now) ++ lit "-" ++ originalname file.

(** [upload.single('photo')]: the file filter is asked when the part
    starts; the size limit is met while the part is written, as soon as
    the part has [fileSize] bytes. The result is [req.file.filename],
    [None] without a file. *)
Definition upload_single (now : Z) (part : option File) : Exn + option jsstring :=
  match part with
  | None => inr None
  | Some file =>
      match fileFilter file with
      | inl err => inl err
      | inr false => inr None
      | inr true =>
          if (fileSize <=? size file)%N then inl (MulterError "LIMIT_FILE_SIZE")
          else inr (Some (filename now file))
      end
  end.

(** ** The server *)

(** The JSON bodies the server answers with. *)
Inductive Json :=
| JError (error : string)
| JInvalid (error : string) (details : list (string * ValidatorError))
| JEquipments (equipments : list (ObjectId * Equipment))
| JEquipment (message : string) (equipment : ObjectId * Equipment)
| JDeleted (message : string) (deletedEquipment : ObjectId * Equipment).

Record Response := {
  statusCode : N;
  json : Json
}.

Definition res (code : N) (j : Json) : Response :=
  {| statusCode := code; json := j |}.

(** [v.trim()]: a TypeError unless [v] is a string. *)
Definition trim_of (v : JsValue) : Async jsstring :=
  match v with
  | JsString s => ret (trim s)
  | _ => throw TypeError
  end.

(** [app.get('/api/equipments')] *)
Definition get_equipments : Async Response :=
  try_catch
    (await equipments ← find_sort;
     ret (res 200 (JEquipments equipments)))
    (λ err, ret (res 500 (JError "Erro ao listar equipamentos"))).

(** [app.post('/api/equipments')], after [upload.single('photo')] has
    set [req.body] and [req.file]. *)
Definition post_equipments `{Host} (now : Z) (body : gmap string JsValue)
    (file : option jsstring) : Async Response :=
  try_catch
    (let title := get body "title" in
     let description := get body "description" in
     let location := get body "location" in
     let laboratory := get body "laboratory" in
     let datetime := get body "datetime" in
     if negb (truthy title) || negb (truthy description)
        || negb (truthy location) || negb (truthy laboratory)
     then ret (res 400 (JError "Campos obrigatórios: title, description, location, laboratory"))
     else
       await title ← trim_of title;
       await description ← trim_of description;
       await location ← trim_of location;
       await laboratory ← trim_of laboratory;
       let equipment :=
         new_Equipment title description location laboratory
           (js_or datetime (JsDate now))
           file (lit "pendente") in
       await equipment ← save now equipment;
       ret (res 201 (JEquipment "Equipamento reportado com sucesso!" equipment)))
    (λ err,
       match err with
       | ValidationError errors =>
           ret (res 400 (JInvalid "Dados de entrada inválidos" errors))
       | _ => ret (res 500 (JError "Erro interno ao salvar equipamento"))
       end).

(** [app.put('/api/equipments/:id')] *)
Definition put_equipments `{Host} (now : Z) (id : jsstring)
    (body : gmap string JsValue) : Async Response :=
  try_catch
    (let status := get body "status" in
     if negb (truthy status) || negb (includes statusValues status)
     then ret (res 400 (JError "Status inválido. Use: pendente, em_manutencao ou concluido"))
     else
       await equipment ← findByIdAndUpdate id status now;
       match equipment with
       | None => ret (res 404 (JError "Equipamento não encontrado"))
       | Some equipment =>
           ret (res 200 (JEquipment "Status atualizado com sucesso!" equipment))
       end)
    (λ err, ret (res 500 (JError "Erro ao atualizar equipamento"))).

(** [app.delete('/api/equipments/:id')] *)
Definition delete_equipments `{Host} (id : jsstring) : Async Response :=
  try_catch
    (await equipment ← findByIdAndDelete id;
     match equipment with
     | None => ret (res 404 (JError "Equipamento não encontrado"))
     | Some equipment =>
         ret (res 200 (JDeleted "Equipamento excluído com sucesso!" equipment))
     end)
    (λ err, ret (res 500 (JError "Erro ao excluir equipamento"))).

(** The error-handling middleware. *)
Definition errorHandler (error : Exn) : Response :=
  match error with
  | MulterError code =>
      if bool_decide (code = "LIMIT_FILE_SIZE")
      then res 400 (JError "Arquivo muito grande. Tamanho máximo: 5MB")
      else res 500 (JError "Erro interno do servidor")
  | _ => res 500 (JError "Erro interno do servidor")
  end.

(** The requests of the four operations. The body of a create request is
    its text fields and its [photo] part; the others carry a JSON body. *)
Inductive Request :=
| GET_equipments
| POST_equipments (body : gmap string JsValue) (photo : option File)
| PUT_equipments (id : jsstring) (body : gmap string JsValue)
| DELETE_equipments (id : jsstring).

(** What has been thrown and not caught goes to the error handler. *)
Definition respond (handler : Async Response) (db : Db) : Response * Db :=
  match handler db with
  | (inr r, db') => (r, db')
  | (inl error, db') => (errorHandler error, db')
  end.

(** The application on the database alone, for a request during which
    the database answers and the clock does not move: [now] is what
    [Date.now()], [new Date()] and the timestamps read. [serve], below,
    is the application without these two assumptions, with the uploads
    directory. *)
Definition app `{Host} (now : Z) (req : Request) (db : Db) : Response * Db :=
  match req with
  | GET_equipments => respond get_equipments db
  | POST_equipments body photo =>
      match upload_single now photo with
      | inl error => (errorHandler error, db)
      | inr file => respond (post_equipments now body file) db
      end
  | PUT_equipments id body => respond (put_equipments now id body) db
  | DELETE_equipments id => respond (delete_equipments id) db
  end.

(** The database after a sequence of requests. *)
Fixpoint run `{Host} (trace : list (Z * Request)) (db : Db) : Db :=
  match trace with
  | [] => db
  | (now, req) :: trace' => run trace' (app now req db).2
  end.

(** ** A reference host *)

Module Reference.

Definition digit (c : N) : option Z :=
  if ((48 <=? c) && (c <=? 57))%N then Some (Z.of_N c - 48) else None.

Fixpoint number (acc : Z) (s : jsstring) : option Z :=
  match s with
  | [] => Some acc
  | c :: r => d ← digit c; number (10 * acc + d) r
  end.

Definition hexDigit (c : N) : option N :=
  if ((48 <=? c) && (c <=? 57))%N then Some (c - 48)%N
  else if ((97 <=? c) && (c <=? 102))%N then Some (c - 87)%N
  else if ((65 <=? c) && (c <=? 70))%N then Some (c - 55)%N
  else None.

Fixpoint hex (acc : N) (s : jsstring) : option N :=
  match s with
  | [] => Some acc
  | c :: r => d ← hexDigit c; hex (16 * acc + d)%N r
  end.

Definition isLeap (y : Z) : bool :=
  ((y mod 4 =? 0) && negb (y mod 100 =? 0)) || (y mod 400 =? 0).

Definition daysInMonth (y m : Z) : Z :=
  if m =? 2 then (if isLeap y then 29 else 28)
  else if (m =? 4) || (m =? 6) || (m =? 9) || (m =? 11) then 30
  else 31.

(** Days from 1970-01-01 to the civil date [y]-[m]-[d]. *)
Definition daysFromCivil (y m d : Z) : Z :=
  let y' := if m <=? 2 then y - 1 else y in
  let era := y' / 400 in
  let yoe := y' - era * 400 in
  let doy := (153 * (if 2 <? m then m - 3 else m + 9) + 2) / 5 + d - 1 in
  let doe := yoe * 365 + yoe / 4 - yoe / 100 + doy in
  era * 146097 + doe - 719468.

Definition field (s : jsstring) (i n : nat) : option Z :=
  number 0 (take n (drop i s)).

(** The time value of a string in the format of [toISOString],
    [YYYY-MM-DDTHH:mm:ss.sssZ]. *)
Definition parseISO (s : jsstring) : option Z :=
  if bool_decide (length s = 24%nat
                  ∧ s !! 4%nat = Some 45%N ∧ s !! 7%nat = Some 45%N
                  ∧ s !! 10%nat = Some 84%N ∧ s !! 13%nat = Some 58%N
                  ∧ s !! 16%nat = Some 58%N ∧ s !! 19%nat = Some 46%N
                  ∧ s !! 23%nat = Some 90%N)
  then
    y ← field s 0 4; m ← field s 5 2; d ← field s 8 2;
    h ← field s 11 2; mi ← field s 14 2; sec ← field s 17 2;
    ms ← field s 20 3;
    if (1 <=? m) && (m <=? 12) && (1 <=? d) && (d <=? daysInMonth y m)
       && (h <=? 23) && (mi <=? 59) && (sec <=? 59)
    then Some ((((daysFromCivil y m d * 24 + h) * 60 + mi) * 60 + sec) * 1000 + ms)
    else None
  else None.

(** A host that makes a [Date] of a time value in range and of a string
    in the format of [toISOString], as every engine does, and of nothing
    else; and an [ObjectId] of a string of 24 hexadecimal digits, as
    every version of the BSON library does, and of nothing else. It is
    the host of the sample requests below. *)
Definition host : Host :=
  {| toDate := λ v,
       match v with
       | JsNumber n =>
           if (-8640000000000000 <=? n) && (n <=? 8640000000000000) then Some n
           else None
       | JsString s => parseISO s
       | _ => None
       end;
     toObjectId := λ s,
       if bool_decide (length s = 24%nat) then hex 0 s else None |}.

End Reference.

(** ** Vocabulary of the properties *)

(** No white space at either end of a string. *)
Definition noSurroundingWhiteSpace (s : jsstring) : Prop :=
  ∀ c, head s = Some c ∨ last s = Some c → isWhiteSpace c = false.

(** A text field that the schema accepts: a string that, trimmed, is not
    empty and has at most [max] code units. *)
Definition validText (max : nat) (v : JsValue) : Prop :=
  ∃ s, v = JsString s ∧ trim s ≠ [] ∧ (length (trim s) ≤ max)%nat.

(** The four text fields are there: the test of the create handler,
    negated. *)
Definition presenceCheck (body : gmap string JsValue) : bool :=
  truthy (get body "title") && truthy (get body "description")
  && truthy (get body "location") && truthy (get body "laboratory").

Definition requiredFields : list string :=
  ["title"; "description"; "location"; "laboratory"].

(** The four text fields of a stored document. *)
Definition textFields (e : Equipment) : list jsstring :=
  [title e; description e; location e; laboratory e].



(** ** Vocabulary of the further properties *)

(** Every stored document has a status of the enum. *)
Definition allStatusValid (db : Db) : Prop :=
  ∀ id (e : Equipment), equipments db !! id = Some e → status e ∈ statusValues.

(** What no operation changes in a stored document. *)
Definition immutablePart (e : Equipment)
  : list jsstring * option jsstring * option Z * Z :=
  (textFields e, photo e, datetime e, createdAt e).

(** The options of the path of a required text field. *)
Definition requiredPath (k : string) : StringOptions :=
  if decide (k = "title") then titlePath
  else if decide (k = "description") then descriptionPath
  else if decide (k = "location") then locationPath
  else laboratoryPath.

(** The [maxlength] of the path of a required text field. *)
Definition maxLengthOf (k : string) : nat :=
  default 0%nat (maxlength (requiredPath k)).

(** A string made of white space only. *)
Definition whiteSpaceOnly (s : jsstring) : Prop :=
  Forall (λ c, isWhiteSpace c = true) s.

(** The answers to a sequence of requests. *)
Fixpoint responses `{Host} (trace : list (Z * Request)) (db : Db) : list Response :=
  match trace with
  | [] => []
  | (now, req) :: trace' =>
      (app now req db).1 :: responses trace' (app now req db).2
  end.

(** The sequence of reports that a list request returns. *)
Definition listing `{Host} (now : Z) (db : Db) : list (ObjectId * Equipment) :=
  match json (app now GET_equipments db).1 with
  | JEquipments l => l
  | _ => []
  end.

(** The answer of a create that has succeeded; of a delete that has. *)
Definition isCreated (r : Response) : bool := bool_decide (statusCode r = 201%N).

Definition isDeleted (r : Response) : bool :=
  match json r with
  | JDeleted _ _ => true
  | _ => false
  end.

(** ** The server in full: its uploads directory, each reading of the
    clock, and a store that may be down *)

(** What a request meets. The create route reads the clock three times:
    [Date.now()] in the name of the uploaded file, [new Date()] in the
    handler, and the timestamps of [save()]; a status update reads it
    once, for [updatedAt], which is [saveTime]. [storeUp] tells whether
    the database answers. *)
Record Env := {
  uploadTime : Z;
  handlerTime : Z;
  saveTime : Z;
  storeUp : bool
}.

(** The state of the server: the names of the files of [uploads/], and
    the database. *)
Record Server := {
  uploads : gset (list N);
  database : Db
}.

(** What a call of the model throws when the database does not answer. *)
Definition storeError : Exn := Error "the database does not answer".

(** A command that is sent and not answered: nothing is carried out. *)
Definition unanswered {A} (c : Command) : Async A :=
  λ db, (inl storeError, send c (equipments db) db).

(** [Equipment.find().sort({ createdAt: -1 })] *)
Definition find_sort_at (up : bool) : Async (list (ObjectId * Equipment)) :=
  if up then find_sort else unanswered CmdFind.

(** [equipment.save()]: the validation comes before the insertion, so
    that a document that is not valid is refused whether the database
    answers or not. *)
Definition save_at (up : bool) (now : Z) (d : Document) : Async (ObjectId * Equipment) :=
  match validate d with
  | [] => λ db,
      let id := fresh (dom (equipments db)) in
      let e := {| paths := doc d; createdAt := now; updatedAt := now |} in
      if up
      then (inr (id, e), send (CmdInsert id) (<[id := e]> (equipments db)) db)
      else unanswered (CmdInsert id) db
  | errors => throw (ValidationError errors)
  end.

(** [Equipment.findByIdAndUpdate(...)]: the casts and the validation
    come before the command. *)
Definition findByIdAndUpdate_at `{Host} (up : bool) (id : jsstring)
    (status : JsValue) (now : Z) : Async (option (ObjectId * Equipment)) :=
  match toObjectId id with
  | None => throw (CastError "_id")
  | Some oid =>
      match status with
      | JsString s =>
          match validateString statusPath s with
          | Some k => throw (ValidationError [("status", k)])
          | None =>
              if up then findByIdAndUpdate id status now
              else unanswered (CmdFindOneAndUpdate oid)
          end
      | _ => throw (CastError "status")
      end
  end.

(** [Equipment.findByIdAndDelete(id)] *)
Definition findByIdAndDelete_at `{Host} (up : bool) (id : jsstring)
  : Async (option (ObjectId * Equipment)) :=
  match toObjectId id with
  | None => throw (CastError "_id")
  | Some oid =>
      if up then findByIdAndDelete id
      else unanswered (CmdFindOneAndDelete oid)
  end.

(** The four handlers, as above, on this store and with these readings
    of the clock. *)
Definition get_equipments_at (up : bool) : Async Response :=
  try_catch
    (await equipments ← find_sort_at up;
     ret (res 200 (JEquipments equipments)))
    (λ err, ret (res 500 (JError "Erro ao listar equipamentos"))).

Definition post_equipments_at `{Host} (env : Env) (body : gmap string JsValue)
    (file : option jsstring) : Async Response :=
  try_catch
    (let title := get body "title" in
     let description := get body "description" in
     let location := get body "location" in
     let laboratory := get body "laboratory" in
     let datetime := get body "datetime" in
     if negb (truthy title) || negb (truthy description)
        || negb (truthy location) || negb (truthy laboratory)
     then ret (res 400 (JError "Campos obrigatórios: title, description, location, laboratory"))
     else
       await title ← trim_of title;
       await description ← trim_of description;
       await location ← trim_of location;
       await laboratory ← trim_of laboratory;
       let equipment :=
         new_Equipment title description location laboratory
           (js_or datetime (JsDate (handlerTime env)))
           file (lit "pendente") in
       await equipment ← save_at (storeUp env) (saveTime env) equipment;
       ret (res 201 (JEquipment "Equipamento reportado com sucesso!" equipment)))
    (λ err,
       match err with
       | ValidationError errors =>
           ret (res 400 (JInvalid "Dados de entrada inválidos" errors))
       | _ => ret (res 500 (JError "Erro interno ao salvar equipamento"))
       end).

Definition put_equipments_at `{Host} (env : Env) (id : jsstring)
    (body : gmap string JsValue) : Async Response :=
  try_catch
    (let status := get body "status" in
     if negb (truthy status) || negb (includes statusValues status)
     then ret (res 400 (JError "Status inválido. Use: pendente, em_manutencao ou concluido"))
     else
       await equipment ← findByIdAndUpdate_at (storeUp env) id status (saveTime env);
       match equipment with
       | None => ret (res 404 (JError "Equipamento não encontrado"))
       | Some equipment =>
           ret (res 200 (JEquipment "Status atualizado com sucesso!" equipment))
       end)
    (λ err, ret (res 500 (JError "Erro ao atualizar equipamento"))).

Definition delete_equipments_at `{Host} (up : bool) (id : jsstring) : Async Response :=
  try_catch
    (await equipment ← findByIdAndDelete_at up id;
     match equipment with
     | None => ret (res 404 (JError "Equipamento não encontrado"))
     | Some equipment =>
         ret (res 200 (JDeleted "Equipamento excluído com sucesso!" equipment))
     end)
    (λ err, ret (res 500 (JError "Erro ao excluir equipamento"))).

(** What [upload.single('photo')] does to [uploads/]: the disk storage
    writes the part under its name once the file filter has accepted it,
    and multer removes the file it was writing when the size limit is
    met. *)
Definition upload_disk (now : Z) (part : option File) (files : gset (list N))
  : gset (list N) :=
  match part with
  | None => files
  | Some file =>
      match fileFilter file with
      | inr true =>
          if (fileSize <=? size file)%N then files ∖ {[filename now file]}
          else {[filename now file]} ∪ files
      | _ => files
      end
  end.

(** The application: the upload middleware runs before the create
    handler, whatever the handler then answers. *)
Definition serve `{Host} (env : Env) (req : Request) (s : Server) : Response * Server :=
  match req with
  | GET_equipments =>
      let out := respond (get_equipments_at (storeUp env)) (database s) in
      (out.1, {| uploads := uploads s; database := out.2 |})
  | POST_equipments body photo =>
      let files := upload_disk (uploadTime env) photo (uploads s) in
      match upload_single (uploadTime env) photo with
      | inl error =>
          (errorHandler error, {| uploads := files; database := database s |})
      | inr file =>
          let out := respond (post_equipments_at env body file) (database s) in
          (out.1, {| uploads := files; database := out.2 |})
      end
  | PUT_equipments id body =>
      let out := respond (put_equipments_at env id body) (database s) in
      (out.1, {| uploads := uploads s; database := out.2 |})
  | DELETE_equipments id =>
      let out := respond (delete_equipments_at (storeUp env) id) (database s) in
      (out.1, {| uploads := uploads s; database := out.2 |})
  end.

(** A store that answers and a clock read once, at [now]. *)
Definition steady (now : Z) : Env :=
  {| uploadTime := now; handlerTime := now; saveTime := now; storeUp := true |}.

(** ** The mobile application: what it sends and what it keeps *)

Module Client.

(** [getStatusColor] *)
Definition getStatusColor (status : jsstring) : jsstring :=
  if decide (status = lit "pendente") then lit "#f59e0b"
  else if decide (status = lit "em_manutencao") then lit "#3b82f6"
  else if decide (status = lit "concluido") then lit "#10b981"
  else lit "#6b7280".

(** [getStatusText]; 231, 227 and 237 are the code units of c cedilla,
    a tilde and i acute. *)
Definition getStatusText (status : jsstring) : jsstring :=
  if decide (status = lit "pendente") then lit "Pendente"
  else if decide (status = lit "em_manutencao")
       then lit "Em Manuten" ++ [231; 227]%N ++ lit "o"
  else if decide (status = lit "concluido")
       then lit "Conclu" ++ [237]%N ++ lit "do"
  else status.

(** An item of the list the application keeps: the JSON of a document,
    whose [_id] is a string. *)
Abbreviation Item := (jsstring * Equipment)%type.

(** [response.ok] *)
Definition ok (r : Response) : bool :=
  ((200 <=? statusCode r) && (statusCode r <=? 299))%N.

(** [{ ...item, status: newStatus }] *)
Definition withStatus (newStatus : jsstring) (e : Equipment) : Equipment :=
  {| paths := {| title := title e; description := description e;
                 location := location e; laboratory := laboratory e;
                 photo := photo e; datetime := datetime e;
                 status := newStatus |};
     createdAt := createdAt e;
     updatedAt := updatedAt e |}.

(** [response.json()] of a list: the documents, each with its [_id] as
    the server writes an [ObjectId] in JSON, by [toHexString]. *)
Definition data (toHexString : ObjectId → jsstring) (r : Response) : list Item :=
  match json r with
  | JEquipments l => (λ x, (toHexString x.1, x.2)) <$> l
  | _ => []
  end.

(** [fetchEquipments]: its request, and the list after the response. *)
Definition fetchEquipments_request : Request := GET_equipments.

Definition fetchEquipments (toHexString : ObjectId → jsstring) (r : Response)
    (prevEquipments : list Item) : list Item :=
  if ok r then data toHexString r else prevEquipments.

(** [updateStatus]: its request, and the list after the response. *)
Definition updateStatus_request (id newStatus : jsstring) : Request :=
  PUT_equipments id {[ "status" := JsString newStatus ]}.

Definition updateStatus (r : Response) (id newStatus : jsstring)
    (prevEquipments : list Item) : list Item :=
  if ok r
  then (λ item : Item,
          if decide (item.1 = id) then (item.1, withStatus newStatus item.2)
          else item) <$> prevEquipments
  else prevEquipments.

(** [handleDelete], once confirmed: its request, and the list after the
    response. *)
Definition handleDelete_request (id : jsstring) : Request :=
  DELETE_equipments id.

Definition handleDelete (r : Response) (id : jsstring)
    (prevEquipments : list Item) : list Item :=
  if ok r then filter (λ item : Item, item.1 ≠ id) prevEquipments
  else prevEquipments.

(** [s.split(sep)] for a separator of one code unit. *)
Fixpoint split (sep : N) (s : jsstring) : list jsstring :=
  match s with
  | [] => [[]]
  | c :: r =>
      if (c =? sep)%N then [] :: split sep r
      else match split sep r with
           | h :: t => (c :: h) :: t
           | [] => [[c]]
           end
  end.

(** What the image picker gives: the [uri] of the file, its [mimeType]
    if the picker knows it, and the number of bytes of the file. *)
Record Asset := {
  uri : jsstring;
  mimeType : option jsstring;
  bytes : N
}.

(** [uriParts[uriParts.length - 1]] of [photo.uri.split('.')] *)
Definition fileType (photo : Asset) : jsstring :=
  default [] (last (split 46 (uri photo))).

(** The [photo] part that [handleSubmit] appends to the form data. *)
Definition photoPart (now : Z) (photo : Asset) : File :=
  {| originalname :=
       lit "equipment_photo_" ++ lit (pretty now) ++ lit "." ++ fileType photo;
     mimetype :=
       match mimeType photo with
       | Some (c :: t) => c :: t
       | _ => lit "image/" ++ fileType photo
       end;
     size := bytes photo |}.

(** The state of the form; [datetime] is the [toISOString()] of the
    date it holds. *)
Record Form := {
  title : jsstring;
  description : jsstring;
  location : jsstring;
  laboratory : jsstring;
  photo : option Asset;
  datetime : jsstring
}.

(** [handleSubmit]: the request it sends, [None] when it stops at its
    alert. *)
Definition handleSubmit (now : Z) (form : Form) : option Request :=
  if bool_decide (title form = []) || bool_decide (description form = [])
     || bool_decide (location form = []) || bool_decide (laboratory form = [])
  then None
  else Some (POST_equipments
               {[ "title" := JsString (title form);
                  "description" := JsString (description form);
                  "location" := JsString (location form);
                  "laboratory" := JsString (laboratory form);
                  "datetime" := JsString (datetime form) ]}
               (photoPart now <$> photo form)).

End Client.

(** What the application shows of an item, [updatedAt] apart. *)
Definition shown (item : Client.Item) : jsstring * Paths * Z :=
  (item.1, paths item.2, createdAt item.2).

(** The [ObjectId] of every stored document is read back from the
    string that [toHexString] writes. *)
Definition idsReadBack `{Host} (toHexString : ObjectId → jsstring) (db : Db) : Prop :=
  ∀ i (e : Equipment), equipments db !! i = Some e →
                       toObjectId (toHexString i) = Some i.

(** ** Sample requests *)

Module Sample.

Definition body : gmap string JsValue :=
  {[ "title" := JsString (lit "  Projetor sem ligar ");
     "description" := JsString (lit "nao liga");
     "location" := JsString (lit "Mesa 5");
     "laboratory" := JsString (lit "Lab 1") ]}.

Definition png : File :=
  {| originalname := lit "projetor.png"; mimetype := lit "image/png"; size := 204800 |}.

Definition pdf : File :=
  {| originalname := lit "manual.pdf"; mimetype := lit "application/pdf"; size := 204800 |}.

Definition hugePng : File :=
  {| originalname := lit "projetor.png"; mimetype := lit "image/png";
     size := 5 * 1024 * 1024 + 1 |}.

(** The database after one report, whose id is 0. *)
Definition db1 : Db :=
  (@app Reference.host 1700000000000 (POST_equipments body None) emptyDb).2.

Definition id0 : jsstring := lit "000000000000000000000000".
Definition id5 : jsstring := lit "000000000000000000000005".

(** A request whose three readings of the clock differ, served while the
    database answers, by a server that holds [db1] and no file. *)
Definition env : Env :=
  {| uploadTime := 1700000060000; handlerTime := 1700000060007;
     saveTime := 1700000060012; storeUp := true |}.

Definition server1 : Server := {| uploads := ∅; database := db1 |}.

End Sample.

Module ClientSample.

(** [n] hexadecimal digits of [x], the most significant first. *)
Fixpoint hexDigits (n : nat) (x : N) : jsstring :=
  match n with
  | O => []
  | S n' =>
      hexDigits n' (x / 16)
      ++ [(let d := (x mod 16)%N in if (d <? 10)%N then d + 48 else d + 87)%N]
  end.

(** [toHexString]: 24 hexadecimal digits. *)
Definition toHexString (x : ObjectId) : jsstring := hexDigits 24 x.

(** The report of [Sample.db1]. *)
Definition report0 : Equipment :=
  {| paths := {| title := lit "Projetor sem ligar";
                 description := lit "nao liga";
                 location := lit "Mesa 5";
                 laboratory := lit "Lab 1";
                 photo := None;
                 datetime := Some 1700000000000;
                 status := lit "pendente" |};
     createdAt := 1700000000000;
     updatedAt := 1700000000000 |}.

Definition form : Client.Form :=
  {| Client.title := lit " Projetor sem ligar";
     Client.description := lit "nao liga";
     Client.location := lit "Mesa 5";
     Client.laboratory := lit "Lab 1";
     Client.photo :=
       Some {| Client.uri := lit "file:///cache/ImagePicker/a1b2.jpg";
               Client.mimeType := None;
               Client.bytes := 204800 |};
     Client.datetime := lit "2024-03-01T12:30:00.000Z" |}.

End ClientSample.

(** * Properties *)

(** ** Strings *)

Lemma trimStart_head s c :
  head (trimStart s) = Some c → isWhiteSpace c = false.
Proof.
  induction s as [|x s IH]; simpl; [done|].
  destruct (isWhiteSpace x) eqn:Hx; [done|].
  simpl. by intros [= <-].
Qed.

Lemma trimStart_fixed s :
  (∀ c, head s = Some c → isWhiteSpace c = false) → trimStart s = s.
Proof.
  destruct s as [|x s]; [done|]. intros Hs. simpl.
  by rewrite (Hs x eq_refl).
Qed.

Lemma trimStart_snoc s c :
  isWhiteSpace c = false → trimStart (s ++ [c]) = trimStart s ++ [c].
Proof.
  intros Hc. induction s as [|x s IH]; simpl.
  - by rewrite Hc.
  - by destruct (isWhiteSpace x).
Qed.

Lemma trimStart_whitespace s :
  Forall (λ c, isWhiteSpace c = true) s → trimStart s = [].
Proof. induction 1 as [|x s Hx _ IH]; simpl; [done|]. by rewrite Hx. Qed.

Lemma trimEnd_cons c s :
  isWhiteSpace c = false → trimEnd (c :: s) = c :: trimEnd s.
Proof.
  intros Hc. unfold trimEnd.
  by rewrite reverse_cons, trimStart_snoc, reverse_snoc.
Qed.

Lemma trim_head s c : head (trim s) = Some c → isWhiteSpace c = false.
Proof.
  unfold trim. destruct (trimStart s) as [|x r] eqn:Hs; [done|].
  assert (isWhiteSpace x = false) as Hx
    by (apply (trimStart_head s); by rewrite Hs).
  rewrite trimEnd_cons by done. by intros [= <-].
Qed.

Lemma trim_last s c : last (trim s) = Some c → isWhiteSpace c = false.
Proof.
  unfold trim, trimEnd. rewrite last_reverse. apply trimStart_head.
Qed.

Lemma trim_noSurroundingWhiteSpace s : noSurroundingWhiteSpace (trim s).
Proof. intros c [Hc|Hc]; eauto using trim_head, trim_last. Qed.

Lemma trim_fixed s : noSurroundingWhiteSpace s → trim s = s.
Proof.
  intros Hs. unfold trim, trimEnd.
  rewrite (trimStart_fixed s) by (intros c Hc; apply Hs; by left).
  rewrite trimStart_fixed, reverse_involutive; [done|].
  intros c Hc. rewrite head_reverse in Hc. apply Hs. by right.
Qed.

Lemma trim_idemp s : trim (trim s) = trim s.
Proof. apply trim_fixed, trim_noSurroundingWhiteSpace. Qed.

Lemma trim_whitespace s :
  Forall (λ c, isWhiteSpace c = true) s → trim s = [].
Proof. intros Hs. unfold trim. by rewrite trimStart_whitespace. Qed.

(** ** The schema *)

Lemma validateString_text o n v :
  required o = true → maxlength o = Some n → enum o = None →
  validateString o v = None ↔ v ≠ [] ∧ (length v ≤ n)%nat.
Proof.
  intros Hr Hm He. unfold validateString. rewrite Hr, Hm, He. simpl.
  case_bool_decide as Hv; simpl.
  - split; [done|]. by intros [? _].
  - destruct (Nat.leb_spec (length v) n); simpl; split; try done.
    + intros [_ ?]. lia.
Qed.

Lemma validateString_required o :
  required o = true → validateString o [] = Some Required.
Proof. intros Hr. unfold validateString. by rewrite Hr. Qed.

Lemma validateString_status s :
  validateString statusPath s = None ↔ s ∈ statusValues.
Proof.
  unfold validateString. simpl.
  case_bool_decide; simpl; split; done.
Qed.

Lemma includes_spec l v :
  includes l v = true ↔ ∃ s, v = JsString s ∧ s ∈ l.
Proof.
  destruct v; simpl; try (split; [done | by intros (? & [=] & _)]).
  rewrite bool_decide_eq_true. split; [eauto|]. by intros (? & [= <-] & ?).
Qed.

Lemma includes_status_truthy v :
  includes statusValues v = true → truthy v = true.
Proof.
  intros (s & -> & Hs)%includes_spec. simpl.
  case_bool_decide as He; [|done]. subst s.
  apply (bool_decide_pack _) in Hs. by vm_compute in Hs.
Qed.

Lemma get_insert_ne (o : gmap string JsValue) k k' v :
  k ≠ k' → get (<[k := v]> o) k' = get o k'.
Proof. intros. unfold get. by rewrite lookup_insert_ne. Qed.

(** ** The create handler, case by case *)

Section Handlers.
Context `{Host}.

Lemma post_equipments_missing now body file db :
  presenceCheck body = false →
  post_equipments now body file db
  = (inr (res 400 (JError "Campos obrigatórios: title, description, location, laboratory")), db).
Proof.
  unfold presenceCheck, post_equipments, try_catch. intros Hp.
  destruct (truthy (get body "title")), (truthy (get body "description")),
    (truthy (get body "location")), (truthy (get body "laboratory"));
    done.
Qed.

Lemma post_equipments_text now body file db t d l lab :
  get body "title" = JsString t → get body "description" = JsString d →
  get body "location" = JsString l → get body "laboratory" = JsString lab →
  t ≠ [] → d ≠ [] → l ≠ [] → lab ≠ [] →
  post_equipments now body file db
  = let equipment :=
      new_Equipment (trim t) (trim d) (trim l) (trim lab)
        (js_or (get body "datetime") (JsDate now)) file (lit "pendente") in
    match validate equipment with
    | [] =>
        let id := fresh (dom (equipments db)) in
        let e := {| paths := doc equipment; createdAt := now; updatedAt := now |} in
        (inr (res 201 (JEquipment "Equipamento reportado com sucesso!" (id, e))),
         send (CmdInsert id) (<[id := e]> (equipments db)) db)
    | errors => (inr (res 400 (JInvalid "Dados de entrada inválidos" errors)), db)
    end.
Proof.
  intros Ht Hd Hl Hlab ? ? ? ?.
  unfold post_equipments, try_catch. rewrite Ht, Hd, Hl, Hlab. simpl.
  rewrite !bool_decide_eq_false_2 by done. simpl.
  unfold bind, ret, save; simpl.
  by destruct (validate _).
Qed.

Lemma setString_trim o s : setString o (trim s) = trim s.
Proof. unfold setString. destruct (trimOpt o); [apply trim_idemp | done]. Qed.

Lemma doc_new_Equipment t d l lab dv file :
  doc (new_Equipment (trim t) (trim d) (trim l) (trim lab) dv file (lit "pendente"))
  = {| title := trim t; description := trim d; location := trim l;
       laboratory := trim lab; photo := file;
       datetime := default None (castDate dv); status := lit "pendente" |}.
Proof. unfold new_Equipment. simpl. by rewrite !setString_trim. Qed.

Lemma validate_new_Equipment t d l lab dv file :
  validate (new_Equipment (trim t) (trim d) (trim l) (trim lab) dv file (lit "pendente"))
  = pathError "title" (validateString titlePath (trim t))
    ++ pathError "description" (validateString descriptionPath (trim d))
    ++ pathError "location" (validateString locationPath (trim l))
    ++ pathError "laboratory" (validateString laboratoryPath (trim lab))
    ++ match castDate dv with Some _ => [] | None => [("datetime", Cast)] end.
Proof.
  unfold validate. rewrite doc_new_Equipment. simpl.
  destruct (castDate dv); simpl; by rewrite ?app_nil_r.
Qed.

Lemma validText_inv max v :
  validText max v →
  ∃ s, v = JsString s ∧ s ≠ [] ∧ trim s ≠ [] ∧ (length (trim s) ≤ max)%nat.
Proof. intros (s & -> & Hs & Hl). exists s. repeat split; try done. by intros ->. Qed.

Lemma post_equipments_ignores_status now body file v :
  post_equipments now (<["status" := v]> body) file
  = post_equipments now body file.
Proof. unfold post_equipments. by rewrite !get_insert_ne by done. Qed.

(** A create request with four valid text fields, let through by the
    upload middleware. *)
Lemma app_post_valid now body photo db file :
  validText 100 (get body "title") → validText 500 (get body "description") →
  validText 100 (get body "location") → validText 100 (get body "laboratory") →
  upload_single now photo = inr file →
  app now (POST_equipments body photo) db
  = match castDate (js_or (get body "datetime") (JsDate now)) with
    | Some dt =>
        let id := fresh (dom (equipments db)) in
        let e := {| paths := {| title := default [] (trim <$> JS.text (get body "title"));
                                description := default [] (trim <$> JS.text (get body "description"));
                                location := default [] (trim <$> JS.text (get body "location"));
                                laboratory := default [] (trim <$> JS.text (get body "laboratory"));
                                photo := file; datetime := dt;
                                status := lit "pendente" |};
                    createdAt := now; updatedAt := now |} in
        (res 201 (JEquipment "Equipamento reportado com sucesso!" (id, e)),
         send (CmdInsert id) (<[id := e]> (equipments db)) db)
    | None =>
        (res 400 (JInvalid "Dados de entrada inválidos" [("datetime", Cast)]), db)
    end.
Proof.
  intros (t & Ht & ? & ? & ?)%validText_inv (d & Hd & ? & ? & ?)%validText_inv
    (l & Hl & ? & ? & ?)%validText_inv (lab & Hlab & ? & ? & ?)%validText_inv Hup.
  simpl. rewrite Hup. unfold respond.
  rewrite (post_equipments_text now body file db t d l lab) by done.
  cbv zeta. rewrite validate_new_Equipment, doc_new_Equipment.
  rewrite (proj2 (validateString_text titlePath 100 (trim t) eq_refl eq_refl eq_refl)) by done.
  rewrite (proj2 (validateString_text descriptionPath 500 (trim d) eq_refl eq_refl eq_refl)) by done.
  rewrite (proj2 (validateString_text locationPath 100 (trim l) eq_refl eq_refl eq_refl)) by done.
  rewrite (proj2 (validateString_text laboratoryPath 100 (trim lab) eq_refl eq_refl eq_refl)) by done.
  rewrite Ht, Hd, Hl, Hlab. simpl.
  by destruct (castDate _).
Qed.

(** A create request stopped by the upload middleware. *)
Lemma app_post_upload_error now body photo db error :
  upload_single now photo = inl error →
  app now (POST_equipments body photo) db = (errorHandler error, db).
Proof. intros Hup. simpl. by rewrite Hup. Qed.

Lemma post_equipments_cases now body file db :
  presenceCheck body = true →
  (∃ t d l lab,
      (get body "title" = JsString t ∧ get body "description" = JsString d
       ∧ get body "location" = JsString l ∧ get body "laboratory" = JsString lab)
      ∧ t ≠ [] ∧ d ≠ [] ∧ l ≠ [] ∧ lab ≠ [])
  ∨ post_equipments now body file db
    = (inr (res 500 (JError "Erro interno ao salvar equipamento")), db).
Proof.
  unfold presenceCheck. rewrite !andb_true_iff. intros [[[Ht Hd] Hl] Hlab].
  unfold post_equipments, try_catch. rewrite Ht, Hd, Hl, Hlab. simpl.
  destruct (get body "title") as [| |?|?|t|?|]; try by right.
  destruct (get body "description") as [| |?|?|d|?|]; try by right.
  destruct (get body "location") as [| |?|?|l|?|]; try by right.
  destruct (get body "laboratory") as [| |?|?|lab|?|]; try by right.
  left. exists t, d, l, lab. simpl in *.
  repeat split; try done; intros ->; done.
Qed.

Lemma pathError_nil name e : pathError name e = [] → e = None.
Proof. by destruct e. Qed.

(** Every create request either is one that [app_post_valid] describes,
    with a [datetime] that casts, or leaves the database as it is and is
    not answered 201. *)
Lemma app_post_cases now body photo db :
  (validText 100 (get body "title") ∧ validText 500 (get body "description")
   ∧ validText 100 (get body "location") ∧ validText 100 (get body "laboratory")
   ∧ (∃ file, upload_single now photo = inr file)
   ∧ is_Some (castDate (js_or (get body "datetime") (JsDate now))))
  ∨ ((app now (POST_equipments body photo) db).2 = db
     ∧ statusCode (app now (POST_equipments body photo) db).1 ≠ 201%N).
Proof.
  destruct (upload_single now photo) as [error|file] eqn:Hup.
  { right. rewrite (app_post_upload_error _ _ _ _ _ Hup). split; [done|].
    destruct error as [| | |code|]; try done. simpl.
    by case_bool_decide. }
  simpl. rewrite Hup. unfold respond.
  destruct (presenceCheck body) eqn:Hp.
  2: { right. by rewrite post_equipments_missing. }
  destruct (post_equipments_cases now body file db Hp)
    as [(t & d & l & lab & (Ht & Hd & Hl & Hlab) & ? & ? & ? & ?) | ->];
    [|by right].
  rewrite (post_equipments_text now body file db t d l lab) by done.
  cbv zeta. rewrite validate_new_Equipment.
  destruct (pathError _ _ ++ _) as [|err errs] eqn:Hv; [left | by right].
  apply app_eq_nil in Hv as [Ht' Hv]. apply app_eq_nil in Hv as [Hd' Hv].
  apply app_eq_nil in Hv as [Hl' Hv]. apply app_eq_nil in Hv as [Hlab' Hv].
  apply pathError_nil, (validateString_text _ 100) in Ht' as [? ?]; [|done..].
  apply pathError_nil, (validateString_text _ 500) in Hd' as [? ?]; [|done..].
  apply pathError_nil, (validateString_text _ 100) in Hl' as [? ?]; [|done..].
  apply pathError_nil, (validateString_text _ 100) in Hlab' as [? ?]; [|done..].
  rewrite Ht, Hd, Hl, Hlab. unfold validText.
  repeat split; eauto 6.
  by destruct (castDate _).
Qed.

(** ** The other handlers, case by case *)

Lemma get_equipments_eval db :
  get_equipments db
  = (inr (res 200 (JEquipments (merge_sort newest_first (map_to_list (equipments db))))),
     send CmdFind (equipments db) db).
Proof. done. Qed.

Lemma put_equipments_invalid now id body db :
  includes statusValues (get body "status") = false →
  put_equipments now id body db
  = (inr (res 400 (JError "Status inválido. Use: pendente, em_manutencao ou concluido")), db).
Proof.
  intros Hi. unfold put_equipments, try_catch. rewrite Hi.
  by rewrite orb_true_r.
Qed.

Lemma put_equipments_valid now id body db s :
  get body "status" = JsString s → s ∈ statusValues →
  put_equipments now id body db
  = match toObjectId id with
    | None => (inr (res 500 (JError "Erro ao atualizar equipamento")), db)
    | Some oid =>
        match equipments db !! oid with
        | Some e =>
            (inr (res 200 (JEquipment "Status atualizado com sucesso!"
                             (oid, setStatus s now e))),
             send (CmdFindOneAndUpdate oid)
               (<[oid := setStatus s now e]> (equipments db)) db)
        | None =>
            (inr (res 404 (JError "Equipamento não encontrado")),
             send (CmdFindOneAndUpdate oid) (equipments db) db)
        end
    end.
Proof.
  intros Hs Hin. unfold put_equipments, try_catch.
  assert (includes statusValues (get body "status") = true) as Hi
    by (apply includes_spec; eauto).
  rewrite Hi, (includes_status_truthy _ Hi). simpl.
  unfold bind, findByIdAndUpdate. rewrite Hs.
  destruct (toObjectId id) as [oid|]; [|done].
  rewrite (proj2 (validateString_status s) Hin).
  by destruct (equipments db !! oid).
Qed.

Lemma delete_equipments_eval id db :
  delete_equipments id db
  = match toObjectId id with
    | None => (inr (res 500 (JError "Erro ao excluir equipamento")), db)
    | Some oid =>
        match equipments db !! oid with
        | Some e =>
            (inr (res 200 (JDeleted "Equipamento excluído com sucesso!" (oid, e))),
             send (CmdFindOneAndDelete oid) (delete oid (equipments db)) db)
        | None =>
            (inr (res 404 (JError "Equipamento não encontrado")),
             send (CmdFindOneAndDelete oid) (equipments db) db)
        end
    end.
Proof.
  unfold delete_equipments, try_catch, bind, findByIdAndDelete.
  destruct (toObjectId id) as [oid|]; [|done].
  by destruct (equipments db !! oid).
Qed.

End Handlers.

(** ** Listing *)

Global Instance newest_first_total : Total newest_first.
Proof. intros a b. unfold newest_first. lia. Qed.

Global Instance newest_first_trans : Transitive newest_first.
Proof. intros a b c. unfold newest_first. lia. Qed.

Section Claims.
Context `{Host}.

(** C2. The list operation answers 200 with every report of the store,
    each one once, ordered by [createdAt] descending (newest first); it
    leaves the reports as they are; and on an empty store it answers 200
    with the empty sequence, not an error. *)
Theorem list_newest_first now db :
  ∃ l, (app now GET_equipments db).1 = res 200 (JEquipments l)
       ∧ l ≡ₚ map_to_list (equipments db)
       ∧ NoDup l
       ∧ (∀ id e, (id, e) ∈ l ↔ equipments db !! id = Some e)
       ∧ length l = base.size (equipments db)
       ∧ StronglySorted newest_first l
       ∧ equipments (app now GET_equipments db).2 = equipments db
       ∧ (app now GET_equipments
            {| equipments := ∅; commands := commands db |}).1
         = res 200 (JEquipments []).
Proof.
  exists (merge_sort newest_first (map_to_list (equipments db))).
  assert (merge_sort newest_first (map_to_list (equipments db))
          ≡ₚ map_to_list (equipments db)) as Hp
    by apply merge_sort_Permutation.
  unfold app, respond. rewrite !get_equipments_eval. simpl.
  repeat split; try done.
  - rewrite Hp. apply NoDup_map_to_list.
  - rewrite Hp. apply elem_of_map_to_list.
  - rewrite Hp. apply elem_of_map_to_list.
  - rewrite Hp. by rewrite length_map_to_list.
  - apply StronglySorted_merge_sort; apply _.
Qed.


(** C8. In the status update the validation of the status comes before
    the look-up of the id: a request whose status value is outside the
    enum is answered 400 whatever its id, an id that is not in the store
    or not even an id included, and no command reaches the database; a
    404 is only ever answered to a request whose status is in the enum. *)
Theorem update_validation_precedes_lookup now id body db :
  (includes statusValues (get body "status") = false →
   (app now (PUT_equipments id body) db).1
   = res 400 (JError "Status inválido. Use: pendente, em_manutencao ou concluido")
   ∧ (app now (PUT_equipments id body) db).2 = db)
  ∧ (statusCode (app now (PUT_equipments id body) db).1 = 404%N →
     includes statusValues (get body "status") = true
     ∧ ∃ oid, toObjectId id = Some oid ∧ equipments db !! oid = None).
Proof.
  split.
  - intros Hi. unfold app, respond. by rewrite put_equipments_invalid.
  - unfold app, respond.
    destruct (includes statusValues (get body "status")) eqn:Hi.
    + destruct (proj1 (includes_spec _ _) Hi) as (s & Hs & Hin).
      rewrite (put_equipments_valid now id body db s Hs Hin).
      destruct (toObjectId id) as [oid|]; [|done].
      destruct (equipments db !! oid) eqn:He; [done|]. eauto.
    + by rewrite put_equipments_invalid.
Qed.

(** C3, amended. For every id that casts to an [ObjectId] and is not in
    the store, a status update with a status of the enum and a delete
    are both answered 404, and the reports are as they were; and
    deleting twice the id of a stored report is answered 200, with the
    deleted record, the first time and 404 the second. *)
Theorem update_delete_not_found now id oid body db :
  toObjectId id = Some oid →
  (equipments db !! oid = None →
   (includes statusValues (get body "status") = true →
    (app now (PUT_equipments id body) db).1
    = res 404 (JError "Equipamento não encontrado")
    ∧ equipments (app now (PUT_equipments id body) db).2 = equipments db)
   ∧ (app now (DELETE_equipments id) db).1
     = res 404 (JError "Equipamento não encontrado")
   ∧ equipments (app now (DELETE_equipments id) db).2 = equipments db)
  ∧ (∀ e, equipments db !! oid = Some e →
     (app now (DELETE_equipments id) db).1
     = res 200 (JDeleted "Equipamento excluído com sucesso!" (oid, e))
     ∧ (app now (DELETE_equipments id) (app now (DELETE_equipments id) db).2).1
       = res 404 (JError "Equipamento não encontrado")).
Proof.
  intros Hid. split.
  - intros He. split.
    + intros Hi.
      destruct (proj1 (includes_spec _ _) Hi) as (s & Hs & Hin).
      unfold app, respond.
      by rewrite (put_equipments_valid now id body db s Hs Hin), Hid, He.
    + unfold app, respond. by rewrite delete_equipments_eval, Hid, He.
  - intros e He. unfold app, respond.
    rewrite delete_equipments_eval, Hid, He. simpl.
    rewrite delete_equipments_eval, Hid. simpl.
    by rewrite lookup_delete_eq.
Qed.

(** C1. A create request whose four text fields are valid is answered
    201, with a record, exactly when the upload middleware lets it
    through and its datetime casts to a Date. The record returned then
    has status pendente and is the one persisted, under an id that was
    free. A "status" that the client puts in the body, whatever its
    value, changes nothing in the answer nor in the database. *)
Theorem create_status_pending now body photo db clientStatus :
  validText 100 (get body "title") → validText 500 (get body "description") →
  validText 100 (get body "location") → validText 100 (get body "laboratory") →
  let out := app now (POST_equipments (<["status" := clientStatus]> body) photo) db in
  out = app now (POST_equipments body photo) db
  ∧ (statusCode out.1 = 201%N
     ↔ (∃ file, upload_single now photo = inr file)
       ∧ is_Some (castDate (js_or (get body "datetime") (JsDate now))))
  ∧ (statusCode out.1 = 201%N →
     ∃ id e, out.1 = res 201 (JEquipment "Equipamento reportado com sucesso!" (id, e))
             ∧ status e = lit "pendente"
             ∧ equipments db !! id = None
             ∧ equipments out.2 = <[id := e]> (equipments db)).
Proof.
  intros Ht Hd Hl Hlab out.
  assert (out = app now (POST_equipments body photo) db) as Hout.
  { unfold out, app. destruct (upload_single now photo); [done|].
    by rewrite post_equipments_ignores_status. }
  split; [done|]. rewrite Hout. clear out Hout.
  destruct (upload_single now photo) as [error|file] eqn:Hup.
  { rewrite (app_post_upload_error _ _ _ _ _ Hup). simpl.
    assert (statusCode (errorHandler error) ≠ 201%N) as Hne.
    { destruct error; simpl; try done. by case_bool_decide. }
    split; [|done]. split; [done|]. by intros [[? [=]] _]. }
  rewrite (app_post_valid now body photo db file) by done.
  destruct (castDate _) as [dt|]; simpl.
  - split; [split; eauto|]. intros _. do 2 eexists.
    repeat split. apply not_elem_of_dom, is_fresh.
  - split; [|done]. split; [done|]. by intros [_ [? [=]]].
Qed.

(** C6, as the code has it. A create request whose photo part is not of
    an image type is stopped by the upload middleware and answered 500
    by the error handler, with its generic message (the message of the
    file filter is not sent); one whose image is over 5 MB is answered
    400. Neither reaches the handler: the database is as it was. *)
Theorem upload_rejections now body f db :
  (startsWith (mimetype f) (lit "image/") = false →
   app now (POST_equipments body (Some f)) db
   = (res 500 (JError "Erro interno do servidor"), db))
  ∧ (startsWith (mimetype f) (lit "image/") = true → (fileSize < size f)%N →
     app now (POST_equipments body (Some f)) db
     = (res 400 (JError "Arquivo muito grande. Tamanho máximo: 5MB"), db)).
Proof.
  unfold app, upload_single, fileFilter. split.
  - by intros ->.
  - intros -> Hsize. by rewrite (proj2 (N.leb_le _ _) (N.lt_le_incl _ _ Hsize)).
Qed.

(** C7, amended. The datetime of a create request goes through the cast
    of the schema's [Date] path. For a request that is otherwise valid
    and a datetime that is a string: the empty string is replaced by
    the time of the request, and the request succeeds; a string that
    the cast makes a Date of is stored as that date, and the request
    succeeds; a string that does not cast to a Date is rejected with
    400, a validation error on datetime, and nothing is persisted. *)
Theorem create_datetime_cast now body photo db file s :
  validText 100 (get body "title") → validText 500 (get body "description") →
  validText 100 (get body "location") → validText 100 (get body "laboratory") →
  upload_single now photo = inr file →
  let out := app now (POST_equipments (<["datetime" := JsString s]> body) photo) db in
  let stored ms :=
    ∃ id e, out.1 = res 201 (JEquipment "Equipamento reportado com sucesso!" (id, e))
            ∧ datetime e = Some ms ∧ equipments out.2 !! id = Some e in
  (s = [] → stored now)
  ∧ (∀ ms, s ≠ [] → toDate (JsString s) = Some ms → stored ms)
  ∧ (s ≠ [] → toDate (JsString s) = None →
     out = (res 400 (JInvalid "Dados de entrada inválidos" [("datetime", Cast)]), db)).
Proof.
  intros Ht Hd Hl Hlab Hup out stored. unfold stored, out. clear stored out.
  set (body' := <["datetime" := JsString s]> body).
  assert (∀ k, k ≠ "datetime" → get body' k = get body k) as Hget
    by (intros; by apply get_insert_ne).
  assert (get body' "datetime" = JsString s) as Hdt
    by (unfold get, body'; by rewrite lookup_insert_eq).
  rewrite (app_post_valid now body' photo db file)
    by (rewrite ?Hget by done; done).
  rewrite Hdt. unfold js_or. simpl.
  split; [|split].
  - intros ->. simpl. do 2 eexists. repeat split. simpl. apply lookup_insert_eq.
  - intros ms Hs Hms. rewrite bool_decide_eq_false_2 by done. simpl.
    destruct s as [|c s]; [done|]. rewrite Hms.
    do 2 eexists. repeat split. simpl. apply lookup_insert_eq.
  - intros Hs Hms. rewrite bool_decide_eq_false_2 by done. simpl.
    destruct s as [|c s]; [done|]. by rewrite Hms.
Qed.

(** C10. A create request whose four text fields are non-empty strings
    passes the presence check of the handler; when one of them is made
    of white space only, the request, let through by the upload
    middleware, is nevertheless answered 400 by the validation of the
    schema, which finds the trimmed field empty (a [required] error on
    it), and the database is as it was. *)
Theorem create_whitespace_only_rejected now body photo db file k s :
  (∀ k', k' ∈ requiredFields → ∃ s', get body k' = JsString s' ∧ s' ≠ []) →
  k ∈ requiredFields → get body k = JsString s →
  Forall (λ c, isWhiteSpace c = true) s →
  upload_single now photo = inr file →
  presenceCheck body = true
  ∧ ∃ errors,
      app now (POST_equipments body photo) db
      = (res 400 (JInvalid "Dados de entrada inválidos" errors), db)
      ∧ (k, Required) ∈ errors.
Proof.
  intros Hall Hk Hs Hws Hup.
  destruct (Hall "title") as (t & Ht & ?); [by repeat constructor|].
  destruct (Hall "description") as (d & Hd & ?); [by repeat constructor|].
  destruct (Hall "location") as (l & Hl & ?); [by repeat constructor|].
  destruct (Hall "laboratory") as (lab & Hlab & ?); [by repeat constructor|].
  split.
  { unfold presenceCheck. rewrite Ht, Hd, Hl, Hlab. simpl.
    by rewrite !bool_decide_eq_false_2. }
  unfold app, respond. rewrite Hup.
  rewrite (post_equipments_text now body file db t d l lab) by done.
  cbv zeta. rewrite validate_new_Equipment.
  apply trim_whitespace in Hws.
  match goal with |- context [match ?L with [] => _ | _ => _ end] =>
    assert ((k, Required) ∈ L) as Hin end.
  { unfold requiredFields in Hk. rewrite !elem_of_cons, elem_of_nil in Hk.
    destruct Hk as [->|[->|[->|[->|[]]]]];
      [rewrite Hs in Ht; injection Ht as <-
      |rewrite Hs in Hd; injection Hd as <-
      |rewrite Hs in Hl; injection Hl as <-
      |rewrite Hs in Hlab; injection Hlab as <-];
      rewrite Hws, validateString_required by done; simpl;
      rewrite ?elem_of_app, ?elem_of_cons; naive_solver. }
  destruct (pathError _ _ ++ _) as [|err errs]; [by apply elem_of_nil in Hin|].
  eauto.
Qed.





End Claims.

(** ** The properties at sample requests, on the reference host *)

Ltac valid_text :=
  eexists; split; [reflexivity | split; [by vm_compute | vm_compute; lia]].

Lemma create_status_pending_witness :
  let out :=
    @app Reference.host 1700000000000
      (POST_equipments (<["status" := JsString (lit "concluido")]> Sample.body)
         (Some Sample.png)) emptyDb in
  statusCode out.1 = 201%N
  ∧ ∃ id e, out.1 = res 201 (JEquipment "Equipamento reportado com sucesso!" (id, e))
            ∧ status e = lit "pendente"
            ∧ equipments emptyDb !! id = None
            ∧ equipments out.2 = <[id := e]> (equipments emptyDb).
Proof.
  intros out.
  destruct (@create_status_pending Reference.host 1700000000000 Sample.body
              (Some Sample.png) emptyDb (JsString (lit "concluido")))
    as (_ & Hiff & Hcreated); [valid_text..|].
  assert (statusCode out.1 = 201%N) as Hout.
  { apply Hiff. split; [by eexists | vm_compute; by eexists]. }
  split; [exact Hout | exact (Hcreated Hout)].
Defined.


Lemma update_validation_precedes_lookup_witness :
  (@app Reference.host 1700000060000
     (PUT_equipments (lit "unknown") {[ "status" := JsString (lit "quebrado") ]})
     Sample.db1)
  = (res 400 (JError "Status inválido. Use: pendente, em_manutencao ou concluido"),
     Sample.db1)
  ∧ includes statusValues
      (get ({[ "status" := JsString (lit "concluido") ]} : gmap string JsValue) "status")
    = true.
Proof.
  split.
  - destruct (@update_validation_precedes_lookup Reference.host 1700000060000
                (lit "unknown") {[ "status" := JsString (lit "quebrado") ]}
                Sample.db1) as [Hinvalid _].
    destruct Hinvalid as [H1 H2]; [reflexivity|].
    by rewrite (surjective_pairing (app _ _ _)), H1, H2.
  - destruct (@update_validation_precedes_lookup Reference.host 1700000060000
                Sample.id5 {[ "status" := JsString (lit "concluido") ]}
                Sample.db1) as [_ Hfound].
    by destruct Hfound as [Hi _]; [by vm_compute|].
Defined.

Lemma update_delete_not_found_witness :
  (@app Reference.host 1700000060000
     (PUT_equipments Sample.id5 {[ "status" := JsString (lit "concluido") ]})
     Sample.db1).1
  = res 404 (JError "Equipamento não encontrado")
  ∧ (@app Reference.host 1700000060000 (DELETE_equipments Sample.id0)
       (@app Reference.host 1700000060000 (DELETE_equipments Sample.id0)
          Sample.db1).2).1
    = res 404 (JError "Equipamento não encontrado").
Proof.
  split.
  - destruct (@update_delete_not_found Reference.host 1700000060000 Sample.id5
                5%N {[ "status" := JsString (lit "concluido") ]} Sample.db1)
      as [Habsent _]; [reflexivity|].
    destruct Habsent as [Hput _]; [by vm_compute|].
    by destruct Hput as [Hres _].
  - destruct (@update_delete_not_found Reference.host 1700000060000 Sample.id0
                0%N {[ "status" := JsString (lit "concluido") ]} Sample.db1)
      as [_ Htwice]; [reflexivity|].
    by edestruct Htwice as [_ Hsecond]; [by vm_compute|].
Defined.

(** C3 as the specification has it fails twice: a status update of an
    id that is not in the store is answered 400, not 404, when its
    status is outside the enum; and an id that does not cast to an
    [ObjectId] is answered 500 by both operations. *)
Lemma update_delete_not_found_counterexample :
  (@toObjectId Reference.host Sample.id5 = Some 5%N
   ∧ equipments Sample.db1 !! 5%N = None
   ∧ (@app Reference.host 1700000060000
        (PUT_equipments Sample.id5 {[ "status" := JsString (lit "quebrado") ]})
        Sample.db1).1
     = res 400 (JError "Status inválido. Use: pendente, em_manutencao ou concluido"))
  ∧ (@toObjectId Reference.host (lit "unknown") = None
     ∧ (@app Reference.host 1700000060000
          (PUT_equipments (lit "unknown") {[ "status" := JsString (lit "concluido") ]})
          Sample.db1).1
       = res 500 (JError "Erro ao atualizar equipamento")
     ∧ (@app Reference.host 1700000060000 (DELETE_equipments (lit "unknown"))
          Sample.db1).1
       = res 500 (JError "Erro ao excluir equipamento")).
Proof. by vm_compute. Qed.

Lemma upload_rejections_witness :
  @app Reference.host 1700000060000 (POST_equipments Sample.body (Some Sample.pdf))
    Sample.db1
  = (res 500 (JError "Erro interno do servidor"), Sample.db1)
  ∧ @app Reference.host 1700000060000
      (POST_equipments Sample.body (Some Sample.hugePng)) Sample.db1
    = (res 400 (JError "Arquivo muito grande. Tamanho máximo: 5MB"), Sample.db1).
Proof.
  split.
  - by apply (@upload_rejections Reference.host 1700000060000 Sample.body
                Sample.pdf Sample.db1).
  - apply (@upload_rejections Reference.host 1700000060000 Sample.body
             Sample.hugePng Sample.db1); [reflexivity|].
    vm_compute. reflexivity.
Defined.

Lemma create_datetime_cast_witness :
  (∃ id e,
      (@app Reference.host 1700000060000
         (POST_equipments
            (<["datetime" := JsString (lit "2024-03-01T12:30:00.000Z")]> Sample.body)
            None) Sample.db1).1
      = res 201 (JEquipment "Equipamento reportado com sucesso!" (id, e))
      ∧ datetime e = Some 1709296200000)
  ∧ @app Reference.host 1700000060000
      (POST_equipments (<["datetime" := JsString (lit "amanha")]> Sample.body) None)
      Sample.db1
    = (res 400 (JInvalid "Dados de entrada inválidos" [("datetime", Cast)]),
       Sample.db1).
Proof.
  split.
  - destruct (@create_datetime_cast Reference.host 1700000060000 Sample.body None
                Sample.db1 None (lit "2024-03-01T12:30:00.000Z"))
      as (_ & Hcast & _); [valid_text.. | reflexivity |].
    destruct (Hcast 1709296200000) as (id & e & Hres & Hdt & _);
      [by vm_compute | by vm_compute |].
    eauto.
  - destruct (@create_datetime_cast Reference.host 1700000060000 Sample.body None
                Sample.db1 None (lit "amanha"))
      as (_ & _ & Hreject); [valid_text.. | reflexivity |].
    apply Hreject; by vm_compute.
Defined.

(** C7 as the specification has it fails: a create request that is
    answered 201 without a datetime is answered 400 when its datetime
    is a string that is not a date. *)
Lemma create_datetime_counterexample :
  statusCode (@app Reference.host 1700000060000
                (POST_equipments Sample.body None) Sample.db1).1 = 201%N
  ∧ @app Reference.host 1700000060000
      (POST_equipments (<["datetime" := JsString (lit "amanha")]> Sample.body) None)
      Sample.db1
    = (res 400 (JInvalid "Dados de entrada inválidos" [("datetime", Cast)]),
       Sample.db1).
Proof. by vm_compute. Qed.


Lemma create_whitespace_only_rejected_witness :
  let body := <["title" := JsString (lit "   ")]> Sample.body in
  presenceCheck body = true
  ∧ ∃ errors,
      @app Reference.host 1700000060000 (POST_equipments body None) Sample.db1
      = (res 400 (JInvalid "Dados de entrada inválidos" errors), Sample.db1)
      ∧ ("title", Required) ∈ errors.
Proof.
  intros body.
  apply (@create_whitespace_only_rejected Reference.host 1700000060000 body None
           Sample.db1 None "title" (lit "   ")).
  - intros k' Hk'. unfold requiredFields in Hk'.
    rewrite !elem_of_cons, elem_of_nil in Hk'.
    destruct Hk' as [->|[->|[->|[->|[]]]]]; eexists; (split; [reflexivity|done]).
  - by repeat constructor.
  - reflexivity.
  - vm_compute. by repeat constructor.
  - reflexivity.
Defined.

(** ** The scenarios of the specification *)

Example scenario_create :
  ∃ e, (@app Reference.host 1700000000000 (POST_equipments Sample.body None) emptyDb).1
       = res 201 (JEquipment "Equipamento reportado com sucesso!" (0%N, e))
       ∧ status e = lit "pendente" ∧ photo e = None
       ∧ title e = lit "Projetor sem ligar".
Proof. eexists. by vm_compute. Qed.

Example scenario_photo :
  ∃ e, (@app Reference.host 1700000060000
          (POST_equipments Sample.body (Some Sample.png)) Sample.db1).1
       = res 201 (JEquipment "Equipamento reportado com sucesso!" (1%N, e))
       ∧ photo e = Some (lit "1700000060000-projetor.png").
Proof. eexists. by vm_compute. Qed.

Example scenario_list :
  ∃ e0 e1,
    (@app Reference.host 1700000120000 GET_equipments
       (@app Reference.host 1700000060000
          (POST_equipments Sample.body (Some Sample.png)) Sample.db1).2).1
    = res 200 (JEquipments [(1%N, e1); (0%N, e0)])
    ∧ createdAt e1 = 1700000060000 ∧ createdAt e0 = 1700000000000.
Proof. do 2 eexists. by vm_compute. Qed.

Example scenario_parseISO :
  Reference.parseISO (lit "2024-03-01T12:30:00.000Z") = Some 1709296200000
  ∧ Reference.parseISO (lit "1970-01-01T00:00:00.000Z") = Some 0
  ∧ Reference.parseISO (lit "2023-02-29T00:00:00.000Z") = None
  ∧ Reference.parseISO (lit "amanha") = None.
Proof. by vm_compute. Qed.


(** * Further properties of the server *)

Section Server.
Context `{Host}.

(** What a create request does: it inserts one record, described here,
    or it changes nothing and is answered 400 or 500. *)
Lemma app_post_outcome now body part db :
  (∃ id e file,
      app now (POST_equipments body part) db
      = (res 201 (JEquipment "Equipamento reportado com sucesso!" (id, e)),
         send (CmdInsert id) (<[id := e]> (equipments db)) db)
      ∧ equipments db !! id = None
      ∧ upload_single now part = inr file
      ∧ status e = lit "pendente" ∧ photo e = file
      ∧ castDate (js_or (get body "datetime") (JsDate now)) = Some (datetime e)
      ∧ createdAt e = now ∧ updatedAt e = now)
  ∨ ((app now (POST_equipments body part) db).2 = db
     ∧ (statusCode (app now (POST_equipments body part) db).1 = 400%N
        ∨ statusCode (app now (POST_equipments body part) db).1 = 500%N)
     ∧ isDeleted (app now (POST_equipments body part) db).1 = false).
Proof.
  destruct (app_post_cases now body part db)
    as [(Ht & Hd & Hl & Hlab & [file Hup] & [dt Hdt]) | [Hdb Hne]].
  - left. rewrite (app_post_valid now body part db file), Hdt by done.
    do 3 eexists. split; [done|]. repeat split; try done.
    apply not_elem_of_dom, is_fresh.
  - right. split; [done|]. revert Hne. unfold app, respond.
    destruct (upload_single now part) as [error|file].
    { destruct error; simpl; auto. case_bool_decide; auto. }
    destruct (presenceCheck body) eqn:Hp.
    2: { rewrite post_equipments_missing by done. auto. }
    destruct (post_equipments_cases now body file db Hp)
      as [(t & d & l & lab & (Ht & Hd & Hl & Hlab) & ? & ? & ? & ?) | ->];
      [|auto].
    rewrite (post_equipments_text now body file db t d l lab) by done.
    cbv zeta. destruct (validate _); simpl; [done | auto].
Qed.

(** What a status update does. *)
Lemma app_put_outcome now id body db :
  (∃ oid e s,
      app now (PUT_equipments id body) db
      = (res 200 (JEquipment "Status atualizado com sucesso!" (oid, setStatus s now e)),
         send (CmdFindOneAndUpdate oid) (<[oid := setStatus s now e]> (equipments db)) db)
      ∧ toObjectId id = Some oid ∧ equipments db !! oid = Some e
      ∧ get body "status" = JsString s ∧ s ∈ statusValues)
  ∨ (∃ oid,
      app now (PUT_equipments id body) db
      = (res 404 (JError "Equipamento não encontrado"),
         send (CmdFindOneAndUpdate oid) (equipments db) db)
      ∧ toObjectId id = Some oid ∧ equipments db !! oid = None)
  ∨ ((app now (PUT_equipments id body) db).2 = db
     ∧ (statusCode (app now (PUT_equipments id body) db).1 = 400%N
        ∨ statusCode (app now (PUT_equipments id body) db).1 = 500%N)
     ∧ isDeleted (app now (PUT_equipments id body) db).1 = false).
Proof.
  unfold app, respond.
  destruct (includes statusValues (get body "status")) eqn:Hi.
  2: { right. right. rewrite put_equipments_invalid by done. auto. }
  destruct (proj1 (includes_spec _ _) Hi) as (s & Hs & Hin).
  rewrite (put_equipments_valid now id body db s Hs Hin).
  destruct (toObjectId id) as [oid|]; [|right; right; auto].
  destruct (equipments db !! oid) as [e|] eqn:He.
  - left. exists oid, e, s. done.
  - right. left. exists oid. done.
Qed.

(** What a delete does. *)
Lemma app_delete_outcome now id db :
  (∃ oid e,
      app now (DELETE_equipments id) db
      = (res 200 (JDeleted "Equipamento excluído com sucesso!" (oid, e)),
         send (CmdFindOneAndDelete oid) (delete oid (equipments db)) db)
      ∧ toObjectId id = Some oid ∧ equipments db !! oid = Some e)
  ∨ (∃ oid,
      app now (DELETE_equipments id) db
      = (res 404 (JError "Equipamento não encontrado"),
         send (CmdFindOneAndDelete oid) (equipments db) db)
      ∧ toObjectId id = Some oid ∧ equipments db !! oid = None)
  ∨ (app now (DELETE_equipments id) db
     = (res 500 (JError "Erro ao excluir equipamento"), db)).
Proof.
  unfold app, respond. rewrite delete_equipments_eval.
  destruct (toObjectId id) as [oid|]; [|right; right; auto].
  destruct (equipments db !! oid) as [e|] eqn:He.
  - left. exists oid, e. done.
  - right. left. exists oid. done.
Qed.

Lemma app_get_outcome now db :
  app now GET_equipments db
  = (res 200 (JEquipments (merge_sort newest_first (map_to_list (equipments db)))),
     send CmdFind (equipments db) db).
Proof. unfold app, respond. by rewrite get_equipments_eval. Qed.

(** ** Invariants and effects *)

Lemma app_allStatusValid now req db :
  allStatusValid db → allStatusValid (app now req db).2.
Proof.
  intros Hdb. destruct req as [|body part|id body|id].
  - by rewrite app_get_outcome.
  - destruct (app_post_outcome now body part db)
      as [(id & e & file & -> & _ & _ & Hs & _) | [-> _]]; [|done].
    intros id' e'. simpl. rewrite lookup_insert. case_decide; [|by apply Hdb].
    intros [= <-]. rewrite Hs. by apply (bool_decide_unpack _).
  - destruct (app_put_outcome now id body db)
      as [(oid & e & s & -> & _ & _ & _ & Hs) | [(oid & -> & _) | [-> _]]];
      try done.
    intros id' e'. simpl. rewrite lookup_insert. case_decide; [|by apply Hdb].
    by intros [= <-].
  - destruct (app_delete_outcome now id db)
      as [(oid & e & -> & _) | [(oid & -> & _) | ->]]; try done.
    intros id' e'. simpl. intros [_ ?]%lookup_delete_Some.
    by apply (Hdb id' e').
Qed.

Lemma run_allStatusValid trace db : allStatusValid db → allStatusValid (run trace db).
Proof.
  revert db. induction trace as [|[now req] trace IH]; intros db Hdb; [done|].
  simpl. by apply IH, app_allStatusValid.
Qed.

(** X1. The status of every stored report is one of pendente,
    em_manutencao, concluido, and stays so whatever requests are served:
    a create writes pendente and a status update writes only a status it
    has found in the enum. *)
Theorem status_always_in_enum trace db :
  allStatusValid db → allStatusValid (run trace db).
Proof. apply run_allStatusValid. Qed.

(** X4. When a create succeeds. A create request is answered 201 if and
    only if the upload middleware lets it through, each of its four text
    fields is a string that is not empty once trimmed and is within the
    length of its path (100 code units, 500 for the description), and
    its datetime, or the time of the request when it has none, casts to
    a Date. *)
Theorem create_accepted_iff now body part db :
  statusCode (app now (POST_equipments body part) db).1 = 201%N
  ↔ (∃ file, upload_single now part = inr file)
    ∧ validText 100 (get body "title") ∧ validText 500 (get body "description")
    ∧ validText 100 (get body "location") ∧ validText 100 (get body "laboratory")
    ∧ is_Some (castDate (js_or (get body "datetime") (JsDate now))).
Proof.
  split.
  - intros Hcode.
    destruct (app_post_cases now body part db)
      as [(Ht & Hd & Hl & Hlab & Hup & Hdt) | [_ Hne]]; done.
  - intros ([file Hup] & Ht & Hd & Hl & Hlab & [dt Hdt]).
    by rewrite (app_post_valid now body part db file), Hdt.
Qed.

(** X5. Nothing but the status and [updatedAt] of a stored report ever
    changes. Whatever the request, a report that is in the store before
    and after it has the same four texts, photo, datetime and
    [createdAt]; and a list or a status update neither adds nor removes
    a report. *)
Theorem stored_fields_immutable now req db :
  (∀ id e e',
     equipments db !! id = Some e →
     equipments (app now req db).2 !! id = Some e' →
     immutablePart e' = immutablePart e)
  ∧ (match req with
     | GET_equipments | PUT_equipments _ _ =>
         dom (equipments (app now req db).2) = dom (equipments db)
     | _ => True
     end).
Proof.
  destruct req as [|body part|id body|id].
  - rewrite app_get_outcome. simpl. split; [|done]. by intros id e e' -> [= ->].
  - split; [|done].
    destruct (app_post_outcome now body part db)
      as [(id & e0 & file & -> & Hfresh & _) | [-> _]]; simpl.
    + intros id' e e' He. rewrite lookup_insert. case_decide; [congruence|].
      rewrite He. by intros [= ->].
    + by intros id e e' -> [= ->].
  - destruct (app_put_outcome now id body db)
      as [(oid & e0 & s & -> & _ & He0 & _) | [(oid & -> & _) | [-> _]]]; simpl.
    + split.
      * intros id' e e' He. rewrite lookup_insert. case_decide.
        -- subst id'. rewrite He0 in He. injection He as <-. by intros [= <-].
        -- rewrite He. by intros [= ->].
      * by apply dom_insert_lookup_L.
    + split; [|done]. by intros id' e e' -> [= ->].
    + split; [|done]. by intros id' e e' -> [= ->].
  - split; [|done].
    destruct (app_delete_outcome now id db)
      as [(oid & e0 & -> & _) | [(oid & -> & _) | ->]]; simpl.
    + intros id' e e' He [_ He']%lookup_delete_Some. congruence.
    + by intros id' e e' -> [= ->].
    + by intros id' e e' -> [= ->].
Qed.

(** X6. Repeating a status update, or a delete, changes nothing more in
    the stored reports than doing it once: after the same status update
    at the times [now1] and then [now2] the reports are those after the
    update at [now2] alone, and after two deletes of an id they are
    those after one. *)
Theorem update_delete_idempotent now1 now2 id body db :
  equipments (app now2 (PUT_equipments id body)
                (app now1 (PUT_equipments id body) db).2).2
  = equipments (app now2 (PUT_equipments id body) db).2
  ∧ equipments (app now2 (DELETE_equipments id)
                  (app now1 (DELETE_equipments id) db).2).2
    = equipments (app now1 (DELETE_equipments id) db).2.
Proof.
  split.
  - unfold app, respond.
    destruct (includes statusValues (get body "status")) eqn:Hi.
    2: { by rewrite !put_equipments_invalid. }
    destruct (proj1 (includes_spec _ _) Hi) as (s & Hs & Hin).
    rewrite !(put_equipments_valid _ id body _ s Hs Hin).
    destruct (toObjectId id) as [oid|]; [|done].
    destruct (equipments db !! oid) as [e|] eqn:He; simpl.
    + rewrite lookup_insert_eq. simpl. by rewrite insert_insert_eq.
    + by rewrite He.
  - unfold app, respond. rewrite !delete_equipments_eval.
    destruct (toObjectId id) as [oid|] eqn:Hid; [|done].
    destruct (equipments db !! oid) as [e|] eqn:He; simpl.
    + by rewrite lookup_delete_eq.
    + by rewrite He.
Qed.

(** ** Listing after a change *)

Lemma size_delete_lookup (m : gmap N Equipment) i e :
  m !! i = Some e → S (base.size (delete i m)) = base.size m.
Proof.
  intros He. rewrite map_size_delete_Some by eauto.
  pose proof (map_size_ne_0_lookup_2 m i (mk_is_Some _ _ He)). lia.
Qed.

Lemma listing_eq now db :
  listing now db = merge_sort newest_first (map_to_list (equipments db)).
Proof. unfold listing. by rewrite app_get_outcome. Qed.

Lemma elem_of_listing now db i x :
  (i, x) ∈ listing now db ↔ equipments db !! i = Some x.
Proof.
  rewrite listing_eq, merge_sort_Permutation. apply elem_of_map_to_list.
Qed.

Lemma length_listing now db : length (listing now db) = base.size (equipments db).
Proof.
  by rewrite listing_eq, merge_sort_Permutation, length_map_to_list.
Qed.

(** X7. A deleted report is gone from the next listing, which holds
    every other report as before: it is one shorter. *)
Theorem deleted_report_not_listed now now' id oid e db :
  toObjectId id = Some oid → equipments db !! oid = Some e →
  let db' := (app now (DELETE_equipments id) db).2 in
  (∀ i x, (i, x) ∈ listing now' db' ↔ i ≠ oid ∧ (i, x) ∈ listing now' db)
  ∧ S (length (listing now' db')) = length (listing now' db).
Proof.
  intros Hid He db'. unfold db', app, respond.
  rewrite delete_equipments_eval, Hid, He. simpl. split.
  - intros i x. rewrite !elem_of_listing. simpl.
    rewrite lookup_delete_Some. split; intros [? ?]; split; congruence.
  - rewrite !length_listing. simpl. by apply (size_delete_lookup _ _ e).
Qed.

(** X8. A status update shows in the next listing: the report is listed
    with its new status and what else it had, the other reports are
    listed as before, and the listing is as long as it was. *)
Theorem updated_report_listed now now' id oid (e : Equipment) s body db :
  toObjectId id = Some oid → equipments db !! oid = Some e →
  get body "status" = JsString s → s ∈ statusValues →
  let db' := (app now (PUT_equipments id body) db).2 in
  (∃ e' : Equipment, (oid, e') ∈ listing now' db' ∧ status e' = s
                      ∧ immutablePart e' = immutablePart e)
  ∧ (∀ i x, i ≠ oid → (i, x) ∈ listing now' db' ↔ (i, x) ∈ listing now' db)
  ∧ length (listing now' db') = length (listing now' db).
Proof.
  intros Hid He Hs Hin db'. unfold db', app, respond.
  rewrite (put_equipments_valid now id body db s Hs Hin), Hid, He. simpl.
  split; [|split].
  - exists (setStatus s now e). rewrite elem_of_listing. simpl.
    by rewrite lookup_insert_eq.
  - intros i x Hi. rewrite !elem_of_listing. simpl.
    by rewrite lookup_insert_ne.
  - rewrite !length_listing. simpl. by rewrite map_size_insert_Some.
Qed.

(** X9. Newest first: a report created at a time later than the
    [createdAt] of every stored report is the first of the next listing,
    which is one longer. *)
Theorem created_report_listed_first now now' body part db :
  statusCode (app now (POST_equipments body part) db).1 = 201%N →
  (∀ i x, equipments db !! i = Some x → createdAt x < now) →
  let db' := (app now (POST_equipments body part) db).2 in
  ∃ id e,
    (app now (POST_equipments body part) db).1
    = res 201 (JEquipment "Equipamento reportado com sucesso!" (id, e))
    ∧ head (listing now' db') = Some (id, e)
    ∧ length (listing now' db') = S (length (listing now' db)).
Proof.
  intros Hcode Hold db'. unfold db'. clear db'. revert Hcode.
  destruct (app_post_outcome now body part db)
    as [(id & e & file & -> & Hfresh & _ & _ & _ & _ & Hcreated & _)
       | (_ & [-> | ->] & _)]; [|done..].
  intros _. exists id, e. simpl. split; [done|]. split.
  - assert ((id, e) ∈ listing now' (send (CmdInsert id) (<[id:=e]> (equipments db)) db))
      as Hin by (rewrite elem_of_listing; simpl; apply lookup_insert_eq).
    assert (StronglySorted newest_first
              (listing now' (send (CmdInsert id) (<[id:=e]> (equipments db)) db)))
      as Hsorted by (rewrite listing_eq; apply StronglySorted_merge_sort; apply _).
    pose proof (elem_of_listing now'
                  (send (CmdInsert id) (<[id:=e]> (equipments db)) db)) as Hl.
    destruct (listing _ _) as [|[i x] l]; [by apply elem_of_nil in Hin|].
    simpl. f_equal.
    apply elem_of_cons in Hin as [Heq|Hin]; [done|].
    apply StronglySorted_inv in Hsorted as [_ Hall].
    rewrite Forall_forall in Hall. specialize (Hall _ Hin).
    unfold newest_first in Hall. simpl in Hall.
    assert (equipments (send (CmdInsert id) (<[id:=e]> (equipments db)) db) !! i
            = Some x) as Hx by (apply Hl; left).
    simpl in Hx. rewrite lookup_insert in Hx. case_decide.
    + by simplify_eq.
    + specialize (Hold _ _ Hx). lia.
  - rewrite !length_listing. simpl. by rewrite map_size_insert_None.
Qed.

(** X10. The number of stored reports is the number of creates answered
    201 less the number of deletes answered 200: after any sequence of
    requests, the reports in the store and the deletes that have
    succeeded are as many as the reports there were and the creates
    that have succeeded. *)
Theorem store_size_accounting trace db :
  (base.size (equipments (run trace db))
   + length (List.filter isDeleted (responses trace db))
   = base.size (equipments db)
     + length (List.filter isCreated (responses trace db)))%nat.
Proof.
  revert db. induction trace as [|[now req] trace IH]; intros db; [done|].
  cbn [run responses List.filter]. specialize (IH (app now req db).2).
  destruct req as [|body part|id body|id].
  - rewrite app_get_outcome in *. simpl in *. done.
  - destruct (app_post_outcome now body part db)
      as [(id & e & file & Happ & Hfresh & _) | (Hdb & Hcode & Hnd)].
    + rewrite Happ in *. simpl in *.
      rewrite map_size_insert_None in IH by done. lia.
    + rewrite Hnd.
      assert (isCreated (app now (POST_equipments body part) db).1 = false)
        as -> by (unfold isCreated; apply bool_decide_eq_false_2;
                  destruct Hcode as [-> | ->]; done).
      by rewrite Hdb in IH |- *.
  - destruct (app_put_outcome now id body db)
      as [(oid & e & s & Happ & _ & He & _)
         | [(oid & Happ & _) | (Hdb & Hcode & Hnd)]].
    + rewrite Happ in *. simpl in *.
      rewrite map_size_insert_Some in IH by done. done.
    + rewrite Happ in *. simpl in *. done.
    + rewrite Hnd.
      assert (isCreated (app now (PUT_equipments id body) db).1 = false)
        as -> by (unfold isCreated; apply bool_decide_eq_false_2;
                  destruct Hcode as [-> | ->]; done).
      by rewrite Hdb in IH |- *.
  - destruct (app_delete_outcome now id db)
      as [(oid & e & Happ & _ & He) | [(oid & Happ & _) | Happ]];
      rewrite Happ in *; simpl in *; [|done..].
    rewrite <-(size_delete_lookup _ _ _ He). lia.
Qed.

Lemma app_equipments_only now req db1 db2 :
  equipments db1 = equipments db2 →
  (app now req db1).1 = (app now req db2).1
  ∧ equipments (app now req db1).2 = equipments (app now req db2).2.
Proof.
  intros Heq. destruct req as [|body part|id body|id].
  - rewrite !app_get_outcome. simpl. by rewrite Heq.
  - unfold app. destruct (upload_single now part) as [error|file]; [done|].
    unfold respond. destruct (presenceCheck body) eqn:Hp.
    2: { by rewrite !post_equipments_missing. }
    assert (∀ db, post_equipments now body file db
                  = (inr (res 500 (JError "Erro interno ao salvar equipamento")), db)
                  ∨ ∃ t d l lab,
                      (get body "title" = JsString t ∧ get body "description" = JsString d
                       ∧ get body "location" = JsString l
                       ∧ get body "laboratory" = JsString lab)
                      ∧ t ≠ [] ∧ d ≠ [] ∧ l ≠ [] ∧ lab ≠ []) as Hcases.
    { intros db. destruct (post_equipments_cases now body file db Hp); auto. }
    destruct (Hcases db1) as [H1 | (t & d & l & lab & (Ht & Hd & Hl & Hlab) & ? & ? & ? & ?)].
    + destruct (Hcases db2) as [H2 | (t & d & l & lab & (Ht & Hd & Hl & Hlab) & ? & ? & ? & ?)].
      * by rewrite H1, H2.
      * rewrite !(post_equipments_text now body file _ t d l lab) by done.
        cbv zeta. destruct (validate _); simpl; by rewrite ?Heq.
    + rewrite !(post_equipments_text now body file _ t d l lab) by done.
      cbv zeta. destruct (validate _); simpl; by rewrite ?Heq.
  - unfold app, respond.
    destruct (includes statusValues (get body "status")) eqn:Hi.
    2: { by rewrite !put_equipments_invalid. }
    destruct (proj1 (includes_spec _ _) Hi) as (s & Hs & Hin).
    rewrite !(put_equipments_valid now id body _ s Hs Hin), Heq.
    destruct (toObjectId id) as [oid|]; [|done].
    destruct (equipments db2 !! oid); simpl; by rewrite ?Heq.
  - unfold app, respond. rewrite !delete_equipments_eval, Heq.
    destruct (toObjectId id) as [oid|]; [|done].
    destruct (equipments db2 !! oid); simpl; by rewrite ?Heq.
Qed.

(** X11. A list request is read-only: whatever request comes after it is
    answered as if the list had not been asked, and leaves the same
    reports. *)
Theorem list_is_read_only now now' req db :
  (app now' req (app now GET_equipments db).2).1 = (app now' req db).1
  ∧ equipments (app now' req (app now GET_equipments db).2).2
    = equipments (app now' req db).2.
Proof. apply app_equipments_only. by rewrite app_get_outcome. Qed.

(** ** The create operation, further *)

Lemma upload_single_inr now part file :
  upload_single now part = inr file
  ↔ file = filename now <$> part
    ∧ ∀ f, part = Some f →
           startsWith (mimetype f) (lit "image/") = true
           ∧ (size f < fileSize)%N.
Proof.
  unfold upload_single, fileFilter. destruct part as [f|]; simpl.
  - destruct (startsWith (mimetype f) (lit "image/")) eqn:Hm.
    + destruct (N.leb_spec fileSize (size f)).
      * split; [done|]. intros [_ Hf]. destruct (Hf f eq_refl). lia.
      * split.
        -- intros [= <-]. split; [done|]. by intros ? [= <-].
        -- by intros [-> _].
    + split; [done|]. intros [_ Hf]. destruct (Hf f eq_refl). congruence.
  - split.
    + intros [= <-]. split; [done|]. by intros ? [=].
    + by intros [-> _].
Qed.

Lemma lit_inj s1 s2 : lit s1 = lit s2 → s1 = s2.
Proof.
  unfold lit. intros Heq.
  assert (Inj (=) (=) (λ c, N.of_nat (Ascii.nat_of_ascii c))) as Hinj.
  { intros a b Hab. apply Nat2N.inj in Hab.
    rewrite <-(Ascii.ascii_nat_embedding a), <-(Ascii.ascii_nat_embedding b).
    by rewrite Hab. }
  apply (list_fmap_eq_inj _ Hinj) in Heq.
  rewrite <-(String.string_of_list_ascii_of_string s1),
    <-(String.string_of_list_ascii_of_string s2). by rewrite Heq.
Qed.

(** X13. The names of the stored photos: two uploads of files of the
    same name are stored under the same name exactly when they are
    served at the same millisecond. *)
Theorem filename_same_iff_same_time now1 now2 f1 f2 :
  originalname f1 = originalname f2 →
  filename now1 f1 = filename now2 f2 ↔ now1 = now2.
Proof.
  intros Hname. unfold filename. rewrite Hname. split; [|by intros ->].
  intros Heq. apply (inj (λ l, l ++ (lit "-" ++ originalname f2))) in Heq.
  by apply lit_inj, (inj pretty) in Heq.
Qed.

Lemma validateString_maxlength o n v :
  maxlength o = Some n → (n < length v)%nat →
  validateString o v = Some MaxLength.
Proof.
  intros Hm Hn. unfold validateString. rewrite Hm.
  rewrite bool_decide_eq_false_2, andb_false_r
    by (intros ->; simpl in Hn; lia).
  by rewrite (proj2 (Nat.leb_gt _ _) Hn).
Qed.

(** X15. A text too long. A create request whose four text fields are
    non-empty strings and one of whose fields is, once trimmed, longer
    than the [maxlength] of its path (100 code units, 500 for the
    description), let through by the upload middleware, is answered 400
    with a [maxlength] error on that field, and the database is as it
    was. *)
Theorem create_overlong_rejected now body part db file k s :
  (∀ k', k' ∈ requiredFields → ∃ s', get body k' = JsString s' ∧ s' ≠ []) →
  k ∈ requiredFields → get body k = JsString s →
  (maxLengthOf k < length (trim s))%nat →
  upload_single now part = inr file →
  ∃ errors,
    app now (POST_equipments body part) db
    = (res 400 (JInvalid "Dados de entrada inválidos" errors), db)
    ∧ (k, MaxLength) ∈ errors.
Proof.
  intros Hall Hk Hs Hlen Hup.
  destruct (Hall "title") as (t & Ht & ?); [by repeat constructor|].
  destruct (Hall "description") as (d & Hd & ?); [by repeat constructor|].
  destruct (Hall "location") as (l & Hl & ?); [by repeat constructor|].
  destruct (Hall "laboratory") as (lab & Hlab & ?); [by repeat constructor|].
  unfold app, respond. rewrite Hup.
  rewrite (post_equipments_text now body file db t d l lab) by done.
  cbv zeta. rewrite validate_new_Equipment.
  match goal with |- context [match ?L with [] => _ | _ => _ end] =>
    assert ((k, MaxLength) ∈ L) as Hin end.
  { unfold requiredFields in Hk. rewrite !elem_of_cons, elem_of_nil in Hk.
    destruct Hk as [->|[->|[->|[->|[]]]]];
      [rewrite Hs in Ht; injection Ht as <-
      |rewrite Hs in Hd; injection Hd as <-
      |rewrite Hs in Hl; injection Hl as <-
      |rewrite Hs in Hlab; injection Hlab as <-];
      [rewrite (validateString_maxlength titlePath 100 (trim s)) by done
      |rewrite (validateString_maxlength descriptionPath 500 (trim s)) by done
      |rewrite (validateString_maxlength locationPath 100 (trim s)) by done
      |rewrite (validateString_maxlength laboratoryPath 100 (trim s)) by done];
      simpl; rewrite ?elem_of_app, ?elem_of_cons; naive_solver. }
  destruct (pathError _ _ ++ _) as [|err errs]; [by apply elem_of_nil in Hin|].
  eauto.
Qed.

(** X16. A text field that is not a string. A create request that passes
    the presence check of the handler with a field that is not a string
    (a number other than 0, [true], an array, an object), let through by
    the upload middleware, is answered 500 by the [catch] of the
    handler: the call of [trim] throws a TypeError. The database is as
    it was. *)
Theorem create_non_text_rejected now body part db file k :
  presenceCheck body = true → k ∈ requiredFields → text (get body k) = None →
  upload_single now part = inr file →
  app now (POST_equipments body part) db
  = (res 500 (JError "Erro interno ao salvar equipamento"), db).
Proof.
  intros Hp Hk Htext Hup. unfold app, respond. rewrite Hup.
  destruct (post_equipments_cases now body file db Hp)
    as [(t & d & l & lab & (Ht & Hd & Hl & Hlab) & _) | ->]; [|done].
  unfold requiredFields in Hk. rewrite !elem_of_cons, elem_of_nil in Hk.
  destruct Hk as [->|[->|[->|[->|[]]]]];
    [rewrite Ht in Htext|rewrite Hd in Htext
    |rewrite Hl in Htext|rewrite Hlab in Htext]; done.
Qed.

Lemma trimStart_decompose s :
  ∃ p, s = p ++ trimStart s ∧ whiteSpaceOnly p.
Proof.
  unfold whiteSpaceOnly. induction s as [|c s (p & Hs & Hp)]; simpl.
  - exists []. by split; [|constructor].
  - destruct (isWhiteSpace c) eqn:Hc.
    + exists (c :: p). split; [by rewrite <-app_comm_cons, <-Hs|].
      by constructor.
    + exists []. by split; [|constructor].
Qed.

Lemma trim_decompose s :
  ∃ p q, s = p ++ trim s ++ q ∧ whiteSpaceOnly p ∧ whiteSpaceOnly q.
Proof.
  destruct (trimStart_decompose s) as (p & Hs & Hp).
  destruct (trimStart_decompose (reverse (trimStart s))) as (q & Hr & Hq).
  exists p, (reverse q). split; [|split; [done|by apply Forall_reverse]].
  rewrite Hs at 1. f_equal. unfold trim, trimEnd.
  rewrite <-reverse_app, <-Hr. by rewrite reverse_involutive.
Qed.

(** X17. Trimming takes nothing but white space, and only at the ends:
    each text of the request of a create answered 201 is the text stored
    between two runs, possibly empty, of white space. *)
Theorem submitted_text_is_stored_text now body part db message id e :
  (app now (POST_equipments body part) db).1
  = res 201 (JEquipment message (id, e)) →
  Forall2 (λ v t, ∃ p q, v = JsString (p ++ t ++ q)
                         ∧ whiteSpaceOnly p ∧ whiteSpaceOnly q)
    (get body <$> requiredFields) (textFields e).
Proof.
  destruct (app_post_cases now body part db)
    as [(Ht & Hd & Hl & Hlab & [file Hup] & [dt Hdt]) | [_ Hne]].
  - rewrite (app_post_valid now body part db file), Hdt by done.
    cbv zeta. simpl. intros [= _ _ <-].
    destruct Ht as (t & Ht & _), Hd as (d & Hd & _), Hl as (l & Hl & _),
      Hlab as (lab & Hlab & _).
    unfold textFields. simpl. rewrite Ht, Hd, Hl, Hlab. simpl.
    repeat constructor.
    + destruct (trim_decompose t) as (p & q & ? & ? & ?). exists p, q.
      split; [congruence|done].
    + destruct (trim_decompose d) as (p & q & ? & ? & ?). exists p, q.
      split; [congruence|done].
    + destruct (trim_decompose l) as (p & q & ? & ? & ?). exists p, q.
      split; [congruence|done].
    + destruct (trim_decompose lab) as (p & q & ? & ? & ?). exists p, q.
      split; [congruence|done].
  - intros Hr. by rewrite Hr in Hne.
Qed.

End Server.

(** * The application and the server *)

Section ClientServer.
Context `{Host} (toHexString : ObjectId → jsstring).

(** X18. The application never falls back on its default label or
    colour for a report that the server lists: whatever requests have
    been served, each listed report is shown as Pendente, Em Manutencao
    or Concluido, in the colour of that status. *)
Theorem listed_status_has_label trace db now i (e : Equipment) :
  allStatusValid db → (i, e) ∈ listing now (run trace db) →
  (Client.getStatusText (status e), Client.getStatusColor (status e))
  ∈ [(lit "Pendente", lit "#f59e0b");
     (lit "Em Manuten" ++ [231; 227]%N ++ lit "o", lit "#3b82f6");
     (lit "Conclu" ++ [237]%N ++ lit "do", lit "#10b981")].
Proof.
  intros Hdb Hin. apply elem_of_listing in Hin.
  apply (run_allStatusValid trace db Hdb) in Hin.
  unfold statusValues in Hin. rewrite !elem_of_cons, elem_of_nil in Hin.
  rewrite !elem_of_cons.
  destruct Hin as [->|[->|[->|[]]]].
  - by left.
  - right. by left.
  - right. right. by left.
Qed.

Lemma presence_checked_not_missing now body part db :
  presenceCheck body = true →
  (app now (POST_equipments body part) db).1
  ≠ res 400 (JError "Campos obrigatórios: title, description, location, laboratory").
Proof.
  intros Hp. unfold app, respond.
  destruct (upload_single now part) as [error|file].
  { destruct error; simpl; try done. by case_bool_decide. }
  destruct (post_equipments_cases now body file db Hp)
    as [(t & d & l & lab & (Ht & Hd & Hl & Hlab) & ? & ? & ? & ?) | ->];
    [|done].
  rewrite (post_equipments_text now body file db t d l lab) by done.
  cbv zeta. by destruct (validate _).
Qed.

(** X19. What the form sends. [handleSubmit] sends nothing when one of
    the four texts of the form is empty, and only then; the request it
    sends is a create whose four text fields are the non-empty texts of
    the form, as they are, and whose datetime is the date of the form.
    Such a request passes the presence check of the server, which never
    answers it with the 400 of the required fields. *)
Theorem submitted_form_passes_presence_check now form :
  (Client.handleSubmit now form = None
   ↔ Client.title form = [] ∨ Client.description form = []
     ∨ Client.location form = [] ∨ Client.laboratory form = [])
  ∧ (∀ req, Client.handleSubmit now form = Some req →
     ∃ body,
       req = POST_equipments body (Client.photoPart now <$> Client.photo form)
       ∧ get body <$> requiredFields
         = JsString <$> [Client.title form; Client.description form;
                         Client.location form; Client.laboratory form]
       ∧ get body "datetime" = JsString (Client.datetime form)
       ∧ presenceCheck body = true
       ∧ ∀ now' db,
           (app now' req db).1
           ≠ res 400 (JError "Campos obrigatórios: title, description, location, laboratory")).
Proof.
  unfold Client.handleSubmit.
  destruct (decide (Client.title form = [])) as [Ht|Ht];
    [rewrite (bool_decide_eq_true_2 _ Ht)|rewrite (bool_decide_eq_false_2 _ Ht)];
    simpl; [split; [split; auto | done]|].
  destruct (decide (Client.description form = [])) as [Hd|Hd];
    [rewrite (bool_decide_eq_true_2 _ Hd)|rewrite (bool_decide_eq_false_2 _ Hd)];
    simpl; [split; [split; auto | done]|].
  destruct (decide (Client.location form = [])) as [Hl|Hl];
    [rewrite (bool_decide_eq_true_2 _ Hl)|rewrite (bool_decide_eq_false_2 _ Hl)];
    simpl; [split; [split; auto | done]|].
  destruct (decide (Client.laboratory form = [])) as [Hlab|Hlab];
    [rewrite (bool_decide_eq_true_2 _ Hlab)|rewrite (bool_decide_eq_false_2 _ Hlab)];
    simpl; [split; [split; auto | done]|].
  split; [split; [done | by intros [|[|[|]]]]|].
  intros req [= <-]. eexists. split; [done|].
  assert (presenceCheck
            {["title" := JsString (Client.title form);
              "description" := JsString (Client.description form);
              "location" := JsString (Client.location form);
              "laboratory" := JsString (Client.laboratory form);
              "datetime" := JsString (Client.datetime form)]} = true) as Hp.
  { unfold presenceCheck.
    change (negb (bool_decide (Client.title form = []))
            && negb (bool_decide (Client.description form = []))
            && negb (bool_decide (Client.location form = []))
            && negb (bool_decide (Client.laboratory form = [])) = true).
    by rewrite !bool_decide_eq_false_2. }
  repeat split; try done.
  intros now' db. by apply presence_checked_not_missing.
Qed.

Lemma map_to_list_insert_lookup (m : gmap N Equipment) oid e e' :
  m !! oid = Some e →
  map_to_list (<[oid := e']> m) ≡ₚ (oid, e') :: map_to_list (delete oid m).
Proof.
  intros He. rewrite <-insert_delete_eq.
  apply map_to_list_insert, lookup_delete_eq.
Qed.

Lemma filter_all {A} (P : A → Prop) `{∀ x, Decision (P x)} (l : list A) :
  Forall P l → filter P l = l.
Proof.
  induction 1 as [|x l Hx _ IH]; [done|].
  by rewrite filter_cons_True, IH.
Qed.

Lemma data_listing now db :
  Client.fetchEquipments toHexString
    (app now Client.fetchEquipments_request db).1 []
  = (λ x, (toHexString x.1, x.2)) <$> listing now db.
Proof.
  unfold Client.fetchEquipments, Client.fetchEquipments_request, Client.data, listing.
  by rewrite app_get_outcome.
Qed.

Lemma others_keep_their_id (m : gmap N Equipment) oid :
  (∀ i (e : Equipment), m !! i = Some e → toObjectId (toHexString i) = Some i) →
  is_Some (m !! oid) →
  Forall (λ x : N * Equipment, toHexString x.1 ≠ toHexString oid)
    (map_to_list (delete oid m)).
Proof.
  intros Hback [e He]. apply Forall_forall. intros [i x].
  rewrite elem_of_map_to_list, lookup_delete_Some. intros [Hne Hx] Heq.
  simpl in Heq. apply Hback in Hx, He. congruence.
Qed.

(** X21. A status update of the application and the list it keeps. The
    application has the list of a refresh; one of the three buttons of a
    report of that list is pressed. The server answers 200, and the
    list that the application then holds, which it makes itself from the
    one it had, shows the same reports ([updatedAt] apart) as a new
    refresh would. *)
Theorem update_keeps_list_in_sync now0 now now' oid (e : Equipment) s db :
  idsReadBack toHexString db → equipments db !! oid = Some e →
  s ∈ statusValues →
  let items :=
    Client.fetchEquipments toHexString
      (app now0 Client.fetchEquipments_request db).1 [] in
  let out :=
    app now (Client.updateStatus_request (toHexString oid) s)
      (app now0 Client.fetchEquipments_request db).2 in
  statusCode out.1 = 200%N
  ∧ shown <$> Client.updateStatus out.1 (toHexString oid) s items
    ≡ₚ shown <$> Client.fetchEquipments toHexString
                   (app now' Client.fetchEquipments_request out.2).1 [].
Proof.
  intros Hback He Hs items out. unfold items, out. clear items out.
  rewrite !data_listing.
  unfold Client.fetchEquipments_request, Client.updateStatus_request.
  rewrite app_get_outcome. unfold app at 1 2 3, respond.
  rewrite (put_equipments_valid now _ _ _ s) by (done || by unfold get; rewrite lookup_singleton_eq).
  simpl. rewrite (Hback _ _ He), He. simpl. split; [done|].
  unfold Client.updateStatus. simpl.
  rewrite !listing_eq, !merge_sort_Permutation. simpl.
  rewrite (map_to_list_insert_lookup _ _ e) by done.
  rewrite <-(map_to_list_delete _ _ _ He). simpl.
  rewrite decide_True by done. simpl. f_equiv.
  f_equiv. rewrite <-!list_fmap_compose. apply reflexive_eq, Forall_fmap_ext_1.
  eapply Forall_impl; [apply (others_keep_their_id _ oid); eauto|].
  intros [i x] Hne. simpl in *. by rewrite decide_False.
Qed.

(** X22. A delete of the application and the list it keeps. The
    application has the list of a refresh and deletes a report of that
    list. The server answers 200, and the list that the application then
    holds, the one it had without the items of that id, holds the same
    reports as a new refresh would. *)
Theorem delete_keeps_list_in_sync now0 now now' oid (e : Equipment) db :
  idsReadBack toHexString db → equipments db !! oid = Some e →
  let items :=
    Client.fetchEquipments toHexString
      (app now0 Client.fetchEquipments_request db).1 [] in
  let out :=
    app now (Client.handleDelete_request (toHexString oid))
      (app now0 Client.fetchEquipments_request db).2 in
  statusCode out.1 = 200%N
  ∧ Client.handleDelete out.1 (toHexString oid) items
    ≡ₚ Client.fetchEquipments toHexString
         (app now' Client.fetchEquipments_request out.2).1 [].
Proof.
  intros Hback He items out. unfold items, out. clear items out.
  rewrite !data_listing.
  unfold Client.fetchEquipments_request, Client.handleDelete_request.
  rewrite app_get_outcome. unfold app at 1 2 3, respond.
  rewrite !delete_equipments_eval. simpl.
  rewrite (Hback _ _ He), He. simpl. split; [done|].
  unfold Client.handleDelete. simpl.
  rewrite !listing_eq, !merge_sort_Permutation. simpl.
  rewrite <-(map_to_list_delete _ _ _ He). simpl.
  rewrite filter_cons_False by (simpl; tauto).
  apply reflexive_eq, filter_all, Forall_fmap.
  eapply Forall_impl; [apply (others_keep_their_id _ oid); eauto|].
  by intros [i x] Hne.
Qed.

End ClientServer.


(** ** The further properties at sample requests *)

Lemma allStatusValid_emptyDb : allStatusValid emptyDb.
Proof. intros id e. simpl. by rewrite lookup_empty. Qed.

Lemma status_always_in_enum_witness :
  ∃ e : Equipment,
    equipments
      (@run Reference.host
         [(1700000000000, POST_equipments Sample.body None);
          (1700000060000,
           PUT_equipments Sample.id0 {[ "status" := JsString (lit "concluido") ]})]
         emptyDb) !! 0%N = Some e
    ∧ status e ∈ statusValues.
Proof.
  eexists. split; [by vm_compute|].
  eapply (@status_always_in_enum Reference.host
            [(1700000000000, POST_equipments Sample.body None);
             (1700000060000,
              PUT_equipments Sample.id0 {[ "status" := JsString (lit "concluido") ]})]
            emptyDb allStatusValid_emptyDb 0%N).
  by vm_compute.
Defined.

Lemma db1_eq : equipments Sample.db1 = {[0%N := ClientSample.report0]}.
Proof. by vm_compute. Qed.

Lemma deleted_report_not_listed_witness :
  S (length (@listing Reference.host 1700000120000
               (@app Reference.host 1700000060000
                  (DELETE_equipments Sample.id0) Sample.db1).2))
  = length (@listing Reference.host 1700000120000 Sample.db1).
Proof.
  eapply (@deleted_report_not_listed Reference.host 1700000060000 1700000120000
            Sample.id0 0%N ClientSample.report0); by vm_compute.
Defined.

Lemma updated_report_listed_witness :
  ∃ e' : Equipment,
    (0%N, e') ∈ @listing Reference.host 1700000120000
                  (@app Reference.host 1700000060000
                     (PUT_equipments Sample.id0
                        {[ "status" := JsString (lit "concluido") ]})
                     Sample.db1).2
    ∧ status e' = lit "concluido".
Proof.
  destruct (@updated_report_listed Reference.host 1700000060000 1700000120000
              Sample.id0 0%N ClientSample.report0 (lit "concluido")
              {[ "status" := JsString (lit "concluido") ]} Sample.db1)
    as [(e' & Hin & Hs & _) _];
    [by vm_compute | by vm_compute | reflexivity
    | apply (bool_decide_unpack _); by vm_compute | ].
  eauto.
Defined.

Lemma created_report_listed_first_witness :
  ∃ e, head (@listing Reference.host 1700000120000
               (@app Reference.host 1700000060000
                  (POST_equipments Sample.body (Some Sample.png)) Sample.db1).2)
       = Some (1%N, e).
Proof.
  destruct (@created_report_listed_first Reference.host 1700000060000
              1700000120000 Sample.body (Some Sample.png) Sample.db1)
    as (id & e & Hres & Hhead & _).
  - by vm_compute.
  - intros i x. rewrite db1_eq. intros [_ <-]%lookup_singleton_Some.
    by vm_compute.
  - injection Hres as <- <-. eauto.
Defined.

Lemma filename_same_iff_same_time_witness :
  filename 1700000060000 Sample.png = filename 1700000060000 Sample.hugePng
  ∧ (filename 1700000060000 Sample.png = filename 1700000060001 Sample.hugePng
     ↔ 1700000060000 = 1700000060001).
Proof.
  split.
  - by apply (filename_same_iff_same_time 1700000060000 1700000060000
                Sample.png Sample.hugePng eq_refl).
  - exact (filename_same_iff_same_time 1700000060000 1700000060001
             Sample.png Sample.hugePng eq_refl).
Defined.

Lemma create_overlong_rejected_witness :
  let body := <["title" := JsString (replicate 101 97%N)]> Sample.body in
  ∃ errors,
    @app Reference.host 1700000060000 (POST_equipments body None) Sample.db1
    = (res 400 (JInvalid "Dados de entrada inválidos" errors), Sample.db1)
    ∧ ("title", MaxLength) ∈ errors.
Proof.
  intros body.
  apply (@create_overlong_rejected Reference.host 1700000060000 body None
           Sample.db1 None "title" (replicate 101 97%N)).
  - intros k' Hk'. unfold requiredFields in Hk'.
    rewrite !elem_of_cons, elem_of_nil in Hk'.
    destruct Hk' as [->|[->|[->|[->|[]]]]]; eexists; (split; [reflexivity|done]).
  - by repeat constructor.
  - reflexivity.
  - vm_compute. lia.
  - reflexivity.
Defined.

Lemma create_non_text_rejected_witness :
  @app Reference.host 1700000060000
    (POST_equipments (<["location" := JsNumber 5]> Sample.body) None) Sample.db1
  = (res 500 (JError "Erro interno ao salvar equipamento"), Sample.db1).
Proof.
  apply (@create_non_text_rejected Reference.host 1700000060000
           (<["location" := JsNumber 5]> Sample.body) None Sample.db1 None
           "location"); try reflexivity.
  by repeat constructor.
Defined.

Lemma submitted_text_is_stored_text_witness :
  ∃ p q, get Sample.body "title" = JsString (p ++ lit "Projetor sem ligar" ++ q)
         ∧ whiteSpaceOnly p ∧ whiteSpaceOnly q.
Proof.
  pose proof (@submitted_text_is_stored_text Reference.host 1700000000000
                Sample.body None emptyDb "Equipamento reportado com sucesso!"
                0%N ClientSample.report0 eq_refl) as Hall.
  by apply Forall2_cons_1 in Hall as [Htitle _].
Defined.

Lemma listed_status_has_label_witness :
  (Client.getStatusText (status ClientSample.report0),
   Client.getStatusColor (status ClientSample.report0))
  ∈ [(lit "Pendente", lit "#f59e0b");
     (lit "Em Manuten" ++ [231; 227]%N ++ lit "o", lit "#3b82f6");
     (lit "Conclu" ++ [237]%N ++ lit "do", lit "#10b981")].
Proof.
  apply (@listed_status_has_label Reference.host
           [(1700000000000, POST_equipments Sample.body None)] emptyDb
           1700000120000 0%N ClientSample.report0 allStatusValid_emptyDb).
  apply elem_of_listing. by vm_compute.
Defined.

Lemma idsReadBack_db1 : @idsReadBack Reference.host ClientSample.toHexString Sample.db1.
Proof.
  intros i e. rewrite db1_eq. intros [<- _]%lookup_singleton_Some.
  by vm_compute.
Qed.

Lemma update_keeps_list_in_sync_witness :
  shown <$> Client.updateStatus
              (@app Reference.host 1700000060000
                 (Client.updateStatus_request Sample.id0 (lit "concluido"))
                 Sample.db1).1
              Sample.id0 (lit "concluido") [(Sample.id0, ClientSample.report0)]
  ≡ₚ [(Sample.id0,
       {| title := lit "Projetor sem ligar"; description := lit "nao liga";
          location := lit "Mesa 5"; laboratory := lit "Lab 1"; photo := None;
          datetime := Some 1700000000000; status := lit "concluido" |},
       1700000000000)].
Proof.
  destruct (@update_keeps_list_in_sync Reference.host ClientSample.toHexString
              1700000030000 1700000060000 1700000120000 0%N ClientSample.report0
              (lit "concluido") Sample.db1 idsReadBack_db1)
    as [_ Hsync]; [by rewrite db1_eq | apply (bool_decide_unpack _); by vm_compute|].
  etrans; [|etrans; [exact Hsync|]]; apply reflexive_eq; by vm_compute.
Defined.

Lemma delete_keeps_list_in_sync_witness :
  Client.handleDelete
    (@app Reference.host 1700000060000
       (Client.handleDelete_request Sample.id0) Sample.db1).1
    Sample.id0 [(Sample.id0, ClientSample.report0)]
  ≡ₚ [].
Proof.
  destruct (@delete_keeps_list_in_sync Reference.host ClientSample.toHexString
              1700000030000 1700000060000 1700000120000 0%N ClientSample.report0
              Sample.db1 idsReadBack_db1)
    as [_ Hsync]; [by rewrite db1_eq|].
  etrans; [|etrans; [exact Hsync|]]; apply reflexive_eq; by vm_compute.
Defined.

(** * The server in full *)

Section FullServer.
Context `{Host}.

(** ** The model of the database alone is the full one, when the
    database answers and the clock does not move *)

Lemma findByIdAndUpdate_at_up id status now :
  findByIdAndUpdate_at true id status now = findByIdAndUpdate id status now.
Proof.
  unfold findByIdAndUpdate_at, findByIdAndUpdate.
  destruct (toObjectId id); [|done]. destruct status; try done.
  by destruct (validateString statusPath _).
Qed.

Lemma findByIdAndDelete_at_up id :
  findByIdAndDelete_at true id = findByIdAndDelete id.
Proof.
  unfold findByIdAndDelete_at, findByIdAndDelete. by destruct (toObjectId id).
Qed.

Lemma serve_steady now req s :
  (serve (steady now) req s).1 = (app now req (database s)).1
  ∧ database (serve (steady now) req s).2 = (app now req (database s)).2.
Proof.
  destruct req as [|body part|id body|id]; unfold serve, app; cbv zeta.
  - done.
  - simpl uploadTime. by destruct (upload_single now part).
  - unfold put_equipments_at, put_equipments. simpl storeUp. simpl saveTime.
    by rewrite findByIdAndUpdate_at_up.
  - unfold delete_equipments_at, delete_equipments. simpl storeUp.
    by rewrite findByIdAndDelete_at_up.
Qed.

(** ** The handlers, case by case *)

Lemma post_equipments_at_missing env body file db :
  presenceCheck body = false →
  post_equipments_at env body file db
  = (inr (res 400 (JError "Campos obrigatórios: title, description, location, laboratory")), db).
Proof.
  unfold presenceCheck, post_equipments_at, try_catch. intros Hp.
  destruct (truthy (get body "title")), (truthy (get body "description")),
    (truthy (get body "location")), (truthy (get body "laboratory"));
    done.
Qed.

Lemma post_equipments_at_text env body file db t d l lab :
  get body "title" = JsString t → get body "description" = JsString d →
  get body "location" = JsString l → get body "laboratory" = JsString lab →
  t ≠ [] → d ≠ [] → l ≠ [] → lab ≠ [] →
  post_equipments_at env body file db
  = let equipment :=
      new_Equipment (trim t) (trim d) (trim l) (trim lab)
        (js_or (get body "datetime") (JsDate (handlerTime env))) file
        (lit "pendente") in
    match validate equipment with
    | [] =>
        let id := fresh (dom (equipments db)) in
        let e := {| paths := doc equipment; createdAt := saveTime env;
                    updatedAt := saveTime env |} in
        if storeUp env
        then (inr (res 201 (JEquipment "Equipamento reportado com sucesso!" (id, e))),
              send (CmdInsert id) (<[id := e]> (equipments db)) db)
        else (inr (res 500 (JError "Erro interno ao salvar equipamento")),
              send (CmdInsert id) (equipments db) db)
    | errors => (inr (res 400 (JInvalid "Dados de entrada inválidos" errors)), db)
    end.
Proof.
  intros Ht Hd Hl Hlab ? ? ? ?.
  unfold post_equipments_at, try_catch. rewrite Ht, Hd, Hl, Hlab. simpl.
  rewrite !bool_decide_eq_false_2 by done. simpl.
  unfold bind, ret, save_at; simpl.
  destruct (validate _); [|done]. by destruct (storeUp env).
Qed.

Lemma post_equipments_at_cases env body file db :
  presenceCheck body = true →
  (∃ t d l lab,
      (get body "title" = JsString t ∧ get body "description" = JsString d
       ∧ get body "location" = JsString l ∧ get body "laboratory" = JsString lab)
      ∧ t ≠ [] ∧ d ≠ [] ∧ l ≠ [] ∧ lab ≠ [])
  ∨ post_equipments_at env body file db
    = (inr (res 500 (JError "Erro interno ao salvar equipamento")), db).
Proof.
  unfold presenceCheck. rewrite !andb_true_iff. intros [[[Ht Hd] Hl] Hlab].
  unfold post_equipments_at, try_catch. rewrite Ht, Hd, Hl, Hlab. simpl.
  destruct (get body "title") as [| |?|?|t|?|]; try by right.
  destruct (get body "description") as [| |?|?|d|?|]; try by right.
  destruct (get body "location") as [| |?|?|l|?|]; try by right.
  destruct (get body "laboratory") as [| |?|?|lab|?|]; try by right.
  left. exists t, d, l, lab. simpl in *.
  repeat split; try done; intros ->; done.
Qed.

Lemma put_equipments_at_invalid env id body db :
  includes statusValues (get body "status") = false →
  put_equipments_at env id body db
  = (inr (res 400 (JError "Status inválido. Use: pendente, em_manutencao ou concluido")), db).
Proof.
  intros Hi. unfold put_equipments_at, try_catch. rewrite Hi.
  by rewrite orb_true_r.
Qed.

Lemma put_equipments_at_valid env id body db s :
  get body "status" = JsString s → s ∈ statusValues →
  put_equipments_at env id body db
  = match toObjectId id with
    | None => (inr (res 500 (JError "Erro ao atualizar equipamento")), db)
    | Some oid =>
        if storeUp env
        then
          match equipments db !! oid with
          | Some e =>
              (inr (res 200 (JEquipment "Status atualizado com sucesso!"
                               (oid, setStatus s (saveTime env) e))),
               send (CmdFindOneAndUpdate oid)
                 (<[oid := setStatus s (saveTime env) e]> (equipments db)) db)
          | None =>
              (inr (res 404 (JError "Equipamento não encontrado")),
               send (CmdFindOneAndUpdate oid) (equipments db) db)
          end
        else (inr (res 500 (JError "Erro ao atualizar equipamento")),
              send (CmdFindOneAndUpdate oid) (equipments db) db)
    end.
Proof.
  intros Hs Hin. unfold put_equipments_at, try_catch.
  assert (includes statusValues (get body "status") = true) as Hi
    by (apply includes_spec; eauto).
  rewrite Hi, (includes_status_truthy _ Hi). simpl.
  unfold bind, findByIdAndUpdate_at, findByIdAndUpdate. rewrite Hs.
  destruct (toObjectId id) as [oid|]; [|done].
  rewrite (proj2 (validateString_status s) Hin).
  destruct (storeUp env); [|done].
  by destruct (equipments db !! oid).
Qed.

Lemma delete_equipments_at_eval up id db :
  delete_equipments_at up id db
  = match toObjectId id with
    | None => (inr (res 500 (JError "Erro ao excluir equipamento")), db)
    | Some oid =>
        if up
        then
          match equipments db !! oid with
          | Some e =>
              (inr (res 200 (JDeleted "Equipamento excluído com sucesso!" (oid, e))),
               send (CmdFindOneAndDelete oid) (delete oid (equipments db)) db)
          | None =>
              (inr (res 404 (JError "Equipamento não encontrado")),
               send (CmdFindOneAndDelete oid) (equipments db) db)
          end
        else (inr (res 500 (JError "Erro ao excluir equipamento")),
              send (CmdFindOneAndDelete oid) (equipments db) db)
    end.
Proof.
  unfold delete_equipments_at, try_catch, bind, findByIdAndDelete_at,
    findByIdAndDelete.
  destruct (toObjectId id) as [oid|]; [|done].
  destruct up; [|done].
  by destruct (equipments db !! oid).
Qed.

(** ** The uploads directory *)

Lemma serve_uploads env req s :
  uploads (serve env req s).2
  = match req with
    | POST_equipments _ part => upload_disk (uploadTime env) part (uploads s)
    | _ => uploads s
    end.
Proof.
  destruct req as [|body part|id body|id]; try done.
  unfold serve. by destruct (upload_single (uploadTime env) part).
Qed.

(** The file of a part that the middleware lets through is in the
    directory, under the name the handler is given. *)
Lemma upload_disk_accepted now part name files :
  upload_single now part = inr (Some name) →
  name ∈ upload_disk now part files.
Proof.
  unfold upload_single, upload_disk. destruct part as [f|]; [|done].
  destruct (fileFilter f) as [|[|]]; try done.
  destruct (fileSize <=? size f)%N; [done|].
  intros [= <-]. apply elem_of_union_l. by apply elem_of_singleton.
Qed.

(** ** What each request does *)

Lemma serve_get_outcome env s :
  (serve env GET_equipments s).1
  = (if storeUp env
     then res 200 (JEquipments (merge_sort newest_first
                                  (map_to_list (equipments (database s)))))
     else res 500 (JError "Erro ao listar equipamentos"))
  ∧ database (serve env GET_equipments s).2
    = send CmdFind (equipments (database s)) (database s).
Proof. unfold serve, respond. by destruct (storeUp env). Qed.

Lemma serve_post_outcome env body part s :
  (∃ id e file,
      (serve env (POST_equipments body part) s).1
      = res 201 (JEquipment "Equipamento reportado com sucesso!" (id, e))
      ∧ database (serve env (POST_equipments body part) s).2
        = send (CmdInsert id) (<[id := e]> (equipments (database s))) (database s)
      ∧ storeUp env = true
      ∧ equipments (database s) !! id = None
      ∧ upload_single (uploadTime env) part = inr file
      ∧ status e = lit "pendente" ∧ photo e = file
      ∧ castDate (js_or (get body "datetime") (JsDate (handlerTime env)))
        = Some (datetime e)
      ∧ createdAt e = saveTime env ∧ updatedAt e = saveTime env)
  ∨ (∃ id,
      (serve env (POST_equipments body part) s).1
      = res 500 (JError "Erro interno ao salvar equipamento")
      ∧ database (serve env (POST_equipments body part) s).2
        = send (CmdInsert id) (equipments (database s)) (database s)
      ∧ storeUp env = false)
  ∨ (database (serve env (POST_equipments body part) s).2 = database s
     ∧ (statusCode (serve env (POST_equipments body part) s).1 = 400%N
        ∨ statusCode (serve env (POST_equipments body part) s).1 = 500%N)).
Proof.
  unfold serve, respond.
  destruct (upload_single (uploadTime env) part) as [error|file] eqn:Hup.
  { right; right. split; [done|].
    destruct error; simpl; auto. case_bool_decide; auto. }
  destruct (presenceCheck body) eqn:Hp.
  2: { right; right. rewrite post_equipments_at_missing by done. auto. }
  destruct (post_equipments_at_cases env body file (database s) Hp)
    as [(t & d & l & lab & (Ht & Hd & Hl & Hlab) & ? & ? & ? & ?) | ->];
    [|right; right; auto].
  rewrite (post_equipments_at_text env body file _ t d l lab) by done.
  cbv zeta. rewrite validate_new_Equipment, doc_new_Equipment.
  destruct (castDate _) as [dt|] eqn:Hdt.
  - destruct (pathError _ _ ++ _) as [|err errs]; [|right; right; auto].
    destruct (storeUp env) eqn:Hstore.
    + left. do 3 eexists. split; [done|]. simpl. repeat split; try done.
      apply not_elem_of_dom, is_fresh.
    + right; left. eexists. done.
  - right; right.
    destruct (pathError _ _ ++ _) as [|err errs] eqn:Hv; [|auto].
    apply app_eq_nil in Hv as [_ Hv]. apply app_eq_nil in Hv as [_ Hv].
    apply app_eq_nil in Hv as [_ Hv]. by apply app_eq_nil in Hv as [_ Hv].
Qed.

Lemma serve_put_outcome env id body s :
  (∃ oid e st,
      (serve env (PUT_equipments id body) s).1
      = res 200 (JEquipment "Status atualizado com sucesso!"
                   (oid, setStatus st (saveTime env) e))
      ∧ database (serve env (PUT_equipments id body) s).2
        = send (CmdFindOneAndUpdate oid)
            (<[oid := setStatus st (saveTime env) e]> (equipments (database s)))
            (database s)
      ∧ storeUp env = true
      ∧ toObjectId id = Some oid ∧ equipments (database s) !! oid = Some e
      ∧ get body "status" = JsString st ∧ st ∈ statusValues)
  ∨ (∃ oid,
      (serve env (PUT_equipments id body) s).1
      = res 404 (JError "Equipamento não encontrado")
      ∧ database (serve env (PUT_equipments id body) s).2
        = send (CmdFindOneAndUpdate oid) (equipments (database s)) (database s)
      ∧ storeUp env = true
      ∧ toObjectId id = Some oid ∧ equipments (database s) !! oid = None)
  ∨ (∃ oid,
      (serve env (PUT_equipments id body) s).1
      = res 500 (JError "Erro ao atualizar equipamento")
      ∧ database (serve env (PUT_equipments id body) s).2
        = send (CmdFindOneAndUpdate oid) (equipments (database s)) (database s)
      ∧ storeUp env = false)
  ∨ (database (serve env (PUT_equipments id body) s).2 = database s
     ∧ (statusCode (serve env (PUT_equipments id body) s).1 = 400%N
        ∨ statusCode (serve env (PUT_equipments id body) s).1 = 500%N)).
Proof.
  unfold serve, respond.
  destruct (includes statusValues (get body "status")) eqn:Hi.
  2: { do 3 right. rewrite put_equipments_at_invalid by done. auto. }
  destruct (proj1 (includes_spec _ _) Hi) as (st & Hs & Hin).
  rewrite (put_equipments_at_valid env id body _ st Hs Hin).
  destruct (toObjectId id) as [oid|]; [|do 3 right; auto].
  destruct (storeUp env) eqn:Hstore.
  - destruct (equipments (database s) !! oid) as [e|] eqn:He.
    + left. exists oid, e, st. done.
    + right; left. exists oid. done.
  - right; right; left. exists oid. done.
Qed.

Lemma serve_delete_outcome env id s :
  (∃ oid e,
      (serve env (DELETE_equipments id) s).1
      = res 200 (JDeleted "Equipamento excluído com sucesso!" (oid, e))
      ∧ database (serve env (DELETE_equipments id) s).2
        = send (CmdFindOneAndDelete oid) (delete oid (equipments (database s)))
            (database s)
      ∧ storeUp env = true
      ∧ toObjectId id = Some oid ∧ equipments (database s) !! oid = Some e)
  ∨ (∃ oid,
      (serve env (DELETE_equipments id) s).1
      = res 404 (JError "Equipamento não encontrado")
      ∧ database (serve env (DELETE_equipments id) s).2
        = send (CmdFindOneAndDelete oid) (equipments (database s)) (database s)
      ∧ storeUp env = true
      ∧ toObjectId id = Some oid ∧ equipments (database s) !! oid = None)
  ∨ (∃ oid,
      (serve env (DELETE_equipments id) s).1
      = res 500 (JError "Erro ao excluir equipamento")
      ∧ database (serve env (DELETE_equipments id) s).2
        = send (CmdFindOneAndDelete oid) (equipments (database s)) (database s)
      ∧ storeUp env = false)
  ∨ (database (serve env (DELETE_equipments id) s).2 = database s
     ∧ statusCode (serve env (DELETE_equipments id) s).1 = 500%N).
Proof.
  unfold serve, respond. rewrite delete_equipments_at_eval.
  destruct (toObjectId id) as [oid|]; [|do 3 right; auto].
  destruct (storeUp env) eqn:Hstore.
  - destruct (equipments (database s) !! oid) as [e|] eqn:He.
    + left. exists oid, e. done.
    + right; left. exists oid. done.
  - right; right; left. exists oid. done.
Qed.

(** ** Status codes and effects *)

(** X2. The status codes of each operation, whether the database
    answers or not: a list is answered 200 when the database answers and
    500 when it does not; a create 201, 400 or 500; a status update 200,
    400, 404 or 500; a delete 200, 404 or 500 (never 400). While the
    database does not answer, every request is answered 400 or 500. *)
Theorem response_codes env req s :
  let code := statusCode (serve env req s).1 in
  match req with
  | GET_equipments => code = if storeUp env then 200%N else 500%N
  | POST_equipments _ _ => code ∈ [201; 400; 500]%N
  | PUT_equipments _ _ => code ∈ [200; 400; 404; 500]%N
  | DELETE_equipments _ => code ∈ [200; 404; 500]%N
  end
  ∧ (storeUp env = false → code ∈ [400; 500]%N).
Proof.
  cbv zeta. destruct req as [|body part|id body|id].
  - destruct (serve_get_outcome env s) as [-> _].
    destruct (storeUp env); simpl; split; try done.
    intros _. rewrite !elem_of_cons; auto.
  - destruct (serve_post_outcome env body part s)
      as [(id & e & file & -> & _ & -> & _) | [(id & -> & _) | (_ & [-> | ->])]];
      simpl; split; try done; intros; rewrite !elem_of_cons; auto.
  - destruct (serve_put_outcome env id body s)
      as [(oid & e & st & -> & _ & -> & _)
         | [(oid & -> & _ & -> & _) | [(oid & -> & _) | (_ & [-> | ->])]]];
      simpl; split; try done; intros; rewrite !elem_of_cons; auto.
  - destruct (serve_delete_outcome env id s)
      as [(oid & e & -> & _ & -> & _)
         | [(oid & -> & _ & -> & _) | [(oid & -> & _) | (_ & ->)]]];
      simpl; split; try done; intros; rewrite !elem_of_cons; auto.
Qed.


(** X14. The record of a create answered 201. The database has
    answered; the record is stored under an id that was free; its
    [createdAt] and [updatedAt] are both what the clock reads when it is
    saved; its photo is the name that the disk storage gave to the
    upload when it read the clock ([null] without a photo part), and a
    file of this name is in the uploads directory; its datetime is the
    cast of the datetime of the request, and what the clock reads in
    the handler when the request has none. *)
Theorem created_record env body part s message id (e : Equipment) :
  (serve env (POST_equipments body part) s).1
  = res 201 (JEquipment message (id, e)) →
  storeUp env = true
  ∧ equipments (database s) !! id = None
  ∧ equipments (database (serve env (POST_equipments body part) s).2) !! id
    = Some e
  ∧ createdAt e = saveTime env ∧ updatedAt e = saveTime env
  ∧ photo e = filename (uploadTime env) <$> part
  ∧ (∀ name, photo e = Some name →
             name ∈ uploads (serve env (POST_equipments body part) s).2)
  ∧ castDate (js_or (get body "datetime") (JsDate (handlerTime env)))
    = Some (datetime e)
  ∧ (truthy (get body "datetime") = false →
     datetime e = Some (handlerTime env)).
Proof.
  rewrite serve_uploads.
  destruct (serve_post_outcome env body part s)
    as [(id' & e' & file & -> & -> & Hstore & Hfresh & Hup & _ & Hphoto & Hdt & Hc & Hu)
       | [(id' & -> & _) | (_ & [Hcode | Hcode])]];
    [|done|intros Hr; by rewrite Hr in Hcode..].
  intros [= _ <- <-]. repeat split; try done.
  - simpl. by rewrite lookup_insert_eq.
  - rewrite Hphoto. by apply upload_single_inr in Hup as [-> _].
  - intros name Hname. apply upload_disk_accepted. by rewrite Hup, <-Hphoto, Hname.
  - intros Hfalsy. unfold js_or in Hdt. rewrite Hfalsy in Hdt.
    by injection Hdt as <-.
Qed.

(** ** A create request without one of its required fields *)


End FullServer.

(** ** The same, on sample requests *)



Lemma created_record_witness :
  ∃ e : Equipment,
    (@serve Reference.host Sample.env
       (POST_equipments Sample.body (Some Sample.png)) Sample.server1).1
    = res 201 (JEquipment "Equipamento reportado com sucesso!" (1%N, e))
    ∧ photo e = Some (lit "1700000060000-projetor.png")
    ∧ datetime e = Some 1700000060007
    ∧ createdAt e = 1700000060012
    ∧ lit "1700000060000-projetor.png"
      ∈ uploads
          (@serve Reference.host Sample.env
             (POST_equipments Sample.body (Some Sample.png)) Sample.server1).2.
Proof.
  eexists. split; [by vm_compute|].
  edestruct (@created_record Reference.host Sample.env Sample.body
               (Some Sample.png) Sample.server1)
    as (_ & _ & _ & Hc & _ & Hphoto & Hfile & _ & Hdt); [by vm_compute|].
  split; [by rewrite Hphoto|]. split; [by apply Hdt|]. split; [exact Hc|].
  apply Hfile. by rewrite Hphoto.
Defined.
